(** * Policy core of the admission webhook: validators, mutators and their chains

    A shallow embedding of [src/validators/*.py], [src/mutators/*.py] and
    [src/schemas/admission.py].  Python values are JSON-like trees, Python
    exceptions are an error monad, and the request object that the mutators
    edit in place is threaded explicitly through every call. *)

From Stdlib Require Import String Ascii List ZArith Bool.
From Stdlib Require Import DecimalString.
Import ListNotations.
Open Scope string_scope.
Set Warnings "-register-all".

(** ** Python values

    The values that [json] parsing and [review.dict()] produce.  Numbers are
    integers: the policy code only inspects and writes user and group ids.  A
    dict is an association list in insertion order; the first binding of a key
    is the one a lookup sees. *)

Inductive Json : Type :=
| JNone
| JBool (b : bool)
| JInt (z : Z)
| JStr (s : string)
| JList (l : list Json)
| JDict (d : list (string * Json)).

(** [type(v).__name__], as it appears in Python's error texts. *)
Definition type_name (v : Json) : string :=
  match v with
  | JNone => "NoneType"
  | JBool _ => "bool"
  | JInt _ => "int"
  | JStr _ => "str"
  | JList _ => "list"
  | JDict _ => "dict"
  end.

(** [bool(v)]: the truth value used by [if v], [not v] and [a or b]. *)
Definition truthy (v : Json) : bool :=
  match v with
  | JNone => false
  | JBool b => b
  | JInt z => negb (z =? 0)%Z
  | JStr s => negb (s =? "")
  | JList l => match l with [] => false | _ => true end
  | JDict d => match d with [] => false | _ => true end
  end.

(** ** Exceptions *)

Inductive exn : Type :=
| AttributeError (ty attr : string)
| TypeError (text : string)
| KeyError (key : string)
| OtherError (text : string).

Inductive Exc (A : Type) : Type :=
| Ok (a : A)
| Raise (e : exn).
Arguments Ok {A} a.
Arguments Raise {A} e.

Definition bind {A B : Type} (m : Exc A) (k : A -> Exc B) : Exc B :=
  match m with
  | Ok a => k a
  | Raise e => Raise e
  end.

Notation "x <- m ;; k" := (bind m (fun x => k))
  (at level 61, m at next level, right associativity).

(** [try: body except Exception as e: handler(e)]. *)
Definition try_except {A : Type} (body : Exc A) (handler : exn -> A) : A :=
  match body with
  | Ok a => a
  | Raise e => handler e
  end.

(** ** Strings *)

(** [needle in hay] on two strings. *)
Definition contains (needle hay : string) : bool :=
  match index 0 needle hay with
  | Some _ => true
  | None => false
  end.

(** [s.split(sep)[0]] for a one-character separator: the text before the
    first [sep], or all of [s] when there is none. *)
Fixpoint before_first (sep : ascii) (s : string) : string :=
  match s with
  | EmptyString => EmptyString
  | String c rest =>
      if Ascii.eqb c sep then EmptyString else String c (before_first sep rest)
  end.

(** [sep.join(parts)]. *)
Definition join (sep : string) (parts : list string) : string :=
  String.concat sep parts.

(** [str(z)] for an integer. *)
Definition str_of_Z (z : Z) : string :=
  NilZero.string_of_int (Z.to_int z).

(** ** Dictionaries *)

Fixpoint lookup (k : string) (d : list (string * Json)) : option Json :=
  match d with
  | [] => None
  | (k', v) :: d' => if k =? k' then Some v else lookup k d'
  end.

Definition has_key (k : string) (d : list (string * Json)) : bool :=
  match lookup k d with
  | Some _ => true
  | None => false
  end.

(** [d[k] = v] on a dict: an existing key keeps its place, a new key goes
    last. *)
Fixpoint setitem (d : list (string * Json)) (k : string) (v : Json)
  : list (string * Json) :=
  match d with
  | [] => [(k, v)]
  | (k', v') :: d' =>
      if k =? k' then (k', v) :: d' else (k', v') :: setitem d' k v
  end.

(** [d.update(defaults)] where [defaults] maps strings to strings. *)
Definition update (d : list (string * Json)) (defaults : list (string * string))
  : list (string * Json) :=
  fold_left (fun acc kv => setitem acc (fst kv) (JStr (snd kv))) defaults d.

(** [v.get(k, default)]. *)
Definition py_get (v : Json) (k : string) (default : Json) : Exc Json :=
  match v with
  | JDict d =>
      Ok (match lookup k d with Some x => x | None => default end)
  | _ => Raise (AttributeError (type_name v) "get")
  end.

(** [k == v] for a string [k]. *)
Definition str_eq (k : string) (v : Json) : bool :=
  match v with
  | JStr s => k =? s
  | _ => false
  end.

(** [k in v] for a string [k]: a key of a dict, a substring of a string, an
    element of a list; the other types are not containers. *)
Definition py_in (k : string) (v : Json) : Exc bool :=
  match v with
  | JDict d => Ok (has_key k d)
  | JStr s => Ok (contains k s)
  | JList l => Ok (existsb (str_eq k) l)
  | _ => Raise (TypeError ("argument of type '" ++ type_name v ++ "' is not iterable"))
  end.

Definition py_not_in (k : string) (v : Json) : Exc bool :=
  b <- py_in k v ;; Ok (negb b).

(** The items a [for] loop over [v] visits. *)
Definition py_iter (v : Json) : Exc (list Json) :=
  match v with
  | JList l => Ok l
  | JDict d => Ok (map (fun kv => JStr (fst kv)) d)
  | JStr s => Ok (map (fun c => JStr (String c EmptyString)) (list_ascii_of_string s))
  | _ => Raise (TypeError ("'" ++ type_name v ++ "' object is not iterable"))
  end.

(** [v == 0]: [False == 0] holds in Python. *)
Definition eq_zero (v : Json) : bool :=
  match v with
  | JInt z => (z =? 0)%Z
  | JBool b => negb b
  | _ => false
  end.

(** [kind in ["Pod", "Deployment"]]. *)
Definition in_pod_or_deployment (kind : Json) : bool :=
  str_eq "Pod" kind || str_eq "Deployment" kind.

(** ** Schemas ([src/schemas/admission.py], [src/mutators/base.py]) *)

Record ValidationResult : Type := mkValidationResult {
  allowed : bool;
  message : option string;
  warnings : option (list string)
}.

Record MutationResult : Type := mkMutationResult {
  mutated : bool;
  patched : option Json;
  mmessage : option string
}.

Record GroupVersionKind : Type := mkGroupVersionKind {
  group : string;
  version : string;
  kind : string
}.

(** What [request.request.kind] holds.  The schema declares
    [kind: Dict[str, str]], a plain dict; the mutator tests build the request
    with a [GroupVersionKind] model, which has a [kind] attribute. *)
Inductive KindAttr : Type :=
| KindDict (d : list (string * Json))
| KindModel (k : GroupVersionKind).

(** The fields of [AdmissionRequest] that the core reads. *)
Record AdmissionRequest : Type := mkAdmissionRequest {
  request_kind : KindAttr;
  object : Json
}.

Record AdmissionReview : Type := mkAdmissionReview {
  request : AdmissionRequest
}.

(** The argument of a mutator, and of an overriding [validate]: either a
    plain value (the app passes [review.dict()]) or a review model. *)
Inductive arg : Type :=
| ArgValue (j : Json)
| ArgReview (r : AdmissionReview).

(** [request.request]. *)
Definition attr_request (a : arg) : Exc AdmissionRequest :=
  match a with
  | ArgValue j => Raise (AttributeError (type_name j) "request")
  | ArgReview r => Ok (request r)
  end.

(** [<...>.kind.kind]. *)
Definition attr_kind_kind (rq : AdmissionRequest) : Exc string :=
  match request_kind rq with
  | KindDict _ => Raise (AttributeError "dict" "kind")
  | KindModel k => Ok (kind k)
  end.

(** The object a review carries, with [o] put in its place. *)
Definition with_object (a : arg) (o : Json) : arg :=
  match a with
  | ArgValue j => ArgValue j
  | ArgReview r =>
      ArgReview (mkAdmissionReview (mkAdmissionRequest (request_kind (request r)) o))
  end.

Definition deny (text : string) : ValidationResult :=
  mkValidationResult false (Some text) None.

Definition allow : ValidationResult :=
  mkValidationResult true None None.

Definition allow_with (text : string) : ValidationResult :=
  mkValidationResult true (Some text) None.

(** ** [str()] and [repr()]

    Characters are Rocq's 256 [ascii] values read as the code points 0-255. *)

Definition double_quote : ascii := ascii_of_nat 34.
Definition single_quote : ascii := ascii_of_nat 39.
Definition backslash : ascii := ascii_of_nat 92.

Definition hex_digit (n : nat) : ascii :=
  nth n (list_ascii_of_string "0123456789abcdef") "0"%char.

(** [c.isprintable()] below code point 256. *)
Definition printable (c : ascii) : bool :=
  let n := nat_of_ascii c in
  ((32 <=? n) && (n <? 127) || (161 <=? n) && negb (n =? 173))%nat.

Definition repr_char (quote c : ascii) : string :=
  if Ascii.eqb c backslash then String backslash (String backslash EmptyString)
  else if Ascii.eqb c quote then String backslash (String quote EmptyString)
  else if Ascii.eqb c (ascii_of_nat 9) then String backslash "t"
  else if Ascii.eqb c (ascii_of_nat 10) then String backslash "n"
  else if Ascii.eqb c (ascii_of_nat 13) then String backslash "r"
  else if printable c then String c EmptyString
  else
    let n := nat_of_ascii c in
    String backslash
      (String "x" (String (hex_digit (n / 16)) (String (hex_digit (n mod 16)) EmptyString))).

(** [repr(s)]: single quotes, unless [s] has a single quote and no double
    quote. *)
Definition repr_str (s : string) : string :=
  let has c := existsb (Ascii.eqb c) (list_ascii_of_string s) in
  let quote := if has single_quote && negb (has double_quote)
               then double_quote else single_quote in
  String quote
    (String.concat "" (map (repr_char quote) (list_ascii_of_string s))
     ++ String quote EmptyString).

Fixpoint repr (v : Json) : string :=
  match v with
  | JNone => "None"
  | JBool true => "True"
  | JBool false => "False"
  | JInt z => str_of_Z z
  | JStr s => repr_str s
  | JList l => "[" ++ join ", " (map repr l) ++ "]"
  | JDict d =>
      "{" ++ join ", "
        ((fix items (d : list (string * Json)) : list string :=
            match d with
            | [] => []
            | (k, x) :: d' => (repr_str k ++ ": " ++ repr x) :: items d'
            end) d) ++ "}"
  end.

(** [str(v)], which an f-string applies to the value it formats. *)
Definition py_str (v : Json) : string :=
  match v with
  | JStr s => s
  | _ => repr v
  end.

(** [str(e)]. *)
Definition str_exn (e : exn) : string :=
  match e with
  | AttributeError ty attr =>
      "'" ++ ty ++ "' object has no attribute '" ++ attr ++ "'"
  | TypeError text => text
  | KeyError key => repr_str key
  | OtherError text => text
  end.

(** ** Validators ([src/validators/base.py]) *)

(** A validator as the chain sees it: its two public methods, either of which
    may raise. *)
Record Validator : Type := mkValidator {
  supports : Json -> Exc bool;
  validate : Json -> Exc ValidationResult
}.

(** [not x or k not in x]. *)
Definition missing (k : string) (x : Json) : Exc bool :=
  if negb (truthy x) then Ok true else py_not_in k x.

(** [BaseValidator.validate], for a subclass with the given [supports] and
    [_validate]. *)
Definition BaseValidator_validate (supports : Json -> Exc bool)
  (_validate : Json -> Exc ValidationResult) (admission_request : Json)
  : ValidationResult :=
  try_except
    (bad <- missing "request" admission_request ;;
     if bad then Ok (deny "Invalid admission request format") else
     request <- py_get admission_request "request" (JDict []) ;;
     bad <- missing "object" request ;;
     if bad then Ok (deny "Missing request object") else
     ok <- supports admission_request ;;
     if negb ok
     then Ok (allow_with "Validator does not support this request type")
     else _validate request)
    (fun e => deny (str_exn e)).

(** [BaseValidator.supports]. *)
Definition BaseValidator_supports (request : Json) : bool := true.

(** [warnings.extend(result.warnings)] under [if result.warnings]. *)
Definition extend_warnings (acc : list string) (result : ValidationResult)
  : list string :=
  match warnings result with
  | Some (w :: ws) => acc ++ w :: ws
  | _ => acc
  end.

(** The loop of [ValidatorChain.validate], from a given state of the local
    [warnings]. *)
Fixpoint ValidatorChain_loop (validators : list Validator) (request : Json)
  (warnings : list string) : Exc ValidationResult :=
  match validators with
  | [] =>
      Ok (mkValidationResult true None
            (match warnings with [] => None | _ => Some warnings end))
  | validator :: rest =>
      ok <- supports validator request ;;
      if negb ok then ValidatorChain_loop rest request warnings else
      result <- validate validator request ;;
      if negb (allowed result) then Ok result else
      ValidatorChain_loop rest request (extend_warnings warnings result)
  end.

Definition ValidatorChain_validate (validators : list Validator) (request : Json)
  : Exc ValidationResult :=
  ValidatorChain_loop validators request [].

(** [supports] of the three policy validators: the kind is read under a
    [try], and any exception means "not supported". *)
Definition kind_supports (request : Json) : bool :=
  try_except
    (r <- py_get request "request" (JDict []) ;;
     k <- py_get r "kind" (JDict []) ;;
     kind <- py_get k "kind" (JStr "") ;;
     Ok (in_pod_or_deployment kind))
    (fun _ => false).

(** The opening of every [_validate]: fetch the pod, refuse it without a
    [spec], read the container list. *)
Definition pod_spec_of (request : Json) : Exc (option (Json * Json)) :=
  pod <- py_get request "object" (JDict []) ;;
  bad <- missing "spec" pod ;;
  if bad then Ok None else
  spec <- py_get pod "spec" (JDict []) ;;
  containers <- py_get spec "containers" (JList []) ;;
  Ok (Some (spec, containers)).

(** A [for] loop whose body either returns a result or falls through to the
    next item; [done] is what follows the loop. *)
Fixpoint for_each (body : Json -> Exc (option ValidationResult))
  (items : list Json) (done : ValidationResult) : Exc ValidationResult :=
  match items with
  | [] => Ok done
  | item :: rest =>
      r <- body item ;;
      match r with
      | Some result => Ok result
      | None => for_each body rest done
      end
  end.

(** *** [src/validators/image_policy.py] *)

Record ImagePolicyValidator : Type := mkImagePolicyValidator {
  allowed_registries : list string;
  deny_latest_tag : bool
}.

(** [__init__]: [allowed_registries or ["docker.io"]]. *)
Definition ImagePolicyValidator_init (allowed_registries : option (list string))
  (deny_latest_tag : bool) : ImagePolicyValidator :=
  mkImagePolicyValidator
    (match allowed_registries with
     | Some (r :: rs) => r :: rs
     | _ => ["docker.io"]
     end)
    deny_latest_tag.

(** [image.split("/")[0]]. *)
Definition split_first (image : Json) : Exc string :=
  match image with
  | JStr s => Ok (before_first "/" s)
  | _ => Raise (AttributeError (type_name image) "split")
  end.

Definition ImagePolicy_container (self : ImagePolicyValidator) (container : Json)
  : Exc (option ValidationResult) :=
  image <- py_get container "image" (JStr "") ;;
  if negb (truthy image) then
    name <- py_get container "name" JNone ;;
    Ok (Some (deny ("Container " ++ py_str name ++ " has no image specified")))
  else
  slash <- py_in "/" image ;;
  registry <- (if slash then split_first image else Ok "docker.io") ;;
  if negb (existsb (String.eqb registry) (allowed_registries self)) then
    Ok (Some (deny ("Registry " ++ registry
                    ++ " is not allowed. Allowed registries: "
                    ++ join ", " (allowed_registries self))))
  else
  latest <- (if deny_latest_tag self
             then (l <- py_in ":latest" image ;;
                   if l then Ok true else py_not_in ":" image)
             else Ok false) ;;
  if latest then
    Ok (Some (deny ("Latest tag is not allowed for image " ++ py_str image)))
  else Ok None.

Definition ImagePolicyValidator__validate (self : ImagePolicyValidator)
  (request : Json) : ValidationResult :=
  try_except
    (ps <- pod_spec_of request ;;
     match ps with
     | None => Ok (deny "Invalid pod specification")
     | Some (spec, containers) =>
         items <- py_iter containers ;;
         for_each (ImagePolicy_container self) items
           (allow_with "Image policy validation passed")
     end)
    (fun e => deny ("Image policy validation error: " ++ str_exn e)).

Definition ImagePolicyValidator_validate (self : ImagePolicyValidator)
  : Json -> ValidationResult :=
  BaseValidator_validate (fun r => Ok (kind_supports r))
    (fun r => Ok (ImagePolicyValidator__validate self r)).

(** *** [src/validators/resource_requirements.py] *)

Record ResourceRequirementsValidator : Type := mkResourceRequirementsValidator {
  enforce_limits : bool
}.

Definition ResourceRequirements_container (self : ResourceRequirementsValidator)
  (container : Json) : Exc (option ValidationResult) :=
  resources <- py_get container "resources" (JDict []) ;;
  if negb (truthy resources) && enforce_limits self then
    name <- py_get container "name" JNone ;;
    Ok (Some (deny ("Container " ++ py_str name
                    ++ " must specify resource requirements")))
  else
  limits <- py_get resources "limits" (JDict []) ;;
  requests <- py_get resources "requests" (JDict []) ;;
  if enforce_limits self then
    let fail what :=
      name <- py_get container "name" JNone ;;
      Ok (Some (deny ("Container " ++ py_str name ++ " must specify " ++ what))) in
    no <- py_not_in "cpu" limits ;;
    if no then fail "CPU limits" else
    no <- py_not_in "memory" limits ;;
    if no then fail "memory limits" else
    no <- py_not_in "cpu" requests ;;
    if no then fail "CPU requests" else
    no <- py_not_in "memory" requests ;;
    if no then fail "memory requests" else
    Ok None
  else Ok None.

Definition ResourceRequirementsValidator__validate
  (self : ResourceRequirementsValidator) (request : Json) : ValidationResult :=
  try_except
    (ps <- pod_spec_of request ;;
     match ps with
     | None => Ok (deny "Invalid pod specification")
     | Some (spec, containers) =>
         items <- py_iter containers ;;
         for_each (ResourceRequirements_container self) items
           (allow_with "Resource requirements validation passed")
     end)
    (fun e => deny ("Resource requirements validation error: " ++ str_exn e)).

Definition ResourceRequirementsValidator_validate
  (self : ResourceRequirementsValidator) : Json -> ValidationResult :=
  BaseValidator_validate (fun r => Ok (kind_supports r))
    (fun r => Ok (ResourceRequirementsValidator__validate self r)).

(** *** [src/validators/security.py] *)

Record SecurityContextValidator : Type := mkSecurityContextValidator {
  enforce_privileged : bool;
  enforce_non_root : bool;
  enforce_readonly_root : bool;
  enforce_host_network : bool
}.

(** [flag and test]: the test is only evaluated when the flag is set. *)
Definition when (flag : bool) (test : Exc bool) : Exc bool :=
  if flag then test else Ok false.

(** [run_as_user is not None and run_as_user == 0]. *)
Definition is_root (run_as_user : Json) : bool :=
  match run_as_user with
  | JNone => false
  | _ => eq_zero run_as_user
  end.

Definition SecurityContext_container (self : SecurityContextValidator)
  (container : Json) : Exc (option ValidationResult) :=
  security_context <- py_get container "securityContext" (JDict []) ;;
  privileged <- when (enforce_privileged self)
                  (p <- py_get security_context "privileged" (JBool false) ;;
                   Ok (truthy p)) ;;
  if privileged then Ok (Some (deny "Privileged containers are not allowed")) else
  root <- when (enforce_non_root self)
            (run_as_user <- py_get security_context "runAsUser" JNone ;;
             Ok (is_root run_as_user)) ;;
  if root then Ok (Some (deny "Running as root is not allowed")) else
  writable <- when (enforce_readonly_root self)
                (r <- py_get security_context "readOnlyRootFilesystem" (JBool false) ;;
                 Ok (negb (truthy r))) ;;
  if writable then Ok (Some (deny "Root filesystem must be read-only")) else
  Ok None.

Definition SecurityContextValidator__validate (self : SecurityContextValidator)
  (request : Json) : ValidationResult :=
  try_except
    (ps <- pod_spec_of request ;;
     match ps with
     | None => Ok (deny "Invalid pod specification")
     | Some (spec, containers) =>
         host <- when (enforce_host_network self)
                   (h <- py_get spec "hostNetwork" (JBool false) ;;
                    Ok (truthy h)) ;;
         if host then Ok (deny "Host network access is not allowed") else
         items <- py_iter containers ;;
         for_each (SecurityContext_container self) items
           (allow_with "Security context validation passed")
     end)
    (fun e => deny ("Security context validation error: " ++ str_exn e)).

(** [SecurityContextValidator.supports] on whatever it is handed: its own
    [validate] hands it [request.request], a model with no [get]. *)
Definition SecurityContextValidator_supports (request : Json + AdmissionRequest)
  : bool :=
  match request with
  | inl j => kind_supports j
  | inr _ =>
      try_except (Raise (AttributeError "AdmissionRequest" "get"))
        (fun _ => false)
  end.

(** [SecurityContextValidator.validate], which overrides the base method and
    reads its argument as a review model.  A [ValidationResult] is a truthy
    object, so [if pod_error: return pod_error] always returns. *)
Definition SecurityContextValidator_validate (self : SecurityContextValidator)
  (request : arg) : ValidationResult :=
  try_except
    (rq <- attr_request request ;;
     if negb (SecurityContextValidator_supports (inr rq)) then Ok allow else
     rq <- attr_request request ;;
     pod_spec <- py_get (object rq) "spec" (JDict []) ;;
     rq <- attr_request request ;;
     kind <- attr_kind_kind rq ;;
     pod_spec <- (if kind =? "Deployment"
                  then (t <- py_get pod_spec "template" (JDict []) ;;
                        py_get t "spec" (JDict []))
                  else Ok pod_spec) ;;
     rq <- attr_request request ;;
     let pod_error := SecurityContextValidator__validate self (object rq) in
     Ok pod_error)
    (fun e => deny (str_exn e)).

(** ** The validators of the repository, as chain members *)

Inductive PolicyValidator : Type :=
| ImagePolicy (self : ImagePolicyValidator)
| ResourceRequirements (self : ResourceRequirementsValidator)
| SecurityContext (self : SecurityContextValidator).

Definition as_validator (v : PolicyValidator) : Validator :=
  match v with
  | ImagePolicy self =>
      mkValidator (fun r => Ok (kind_supports r))
        (fun r => Ok (ImagePolicyValidator_validate self r))
  | ResourceRequirements self =>
      mkValidator (fun r => Ok (kind_supports r))
        (fun r => Ok (ResourceRequirementsValidator_validate self r))
  | SecurityContext self =>
      mkValidator (fun r => Ok (SecurityContextValidator_supports (inl r)))
        (fun r => Ok (SecurityContextValidator_validate self (ArgValue r)))
  end.

(** ** Mutators ([src/mutators/base.py]) *)

(** What a call of the chain comes to.  The chain has no [try]: an exception
    of a mutator leaves it as it is, and so does the [ValidationError] that
    pydantic raises when [MutationResult] is built with a [patched] that is not
    a dict (the field is declared [Optional[Dict[str, Any]]]). *)
Inductive Outcome : Type :=
| Returned (result : MutationResult)
| Raised (e : exn)
| Rejected (patched : Json).

(** [MutationResult(mutated=.., patched=.., message=..)]. *)
Definition MutationResult_init (mutated : bool) (patched : option Json)
  (message : option string) : Outcome :=
  match patched with
  | Some (JDict d) => Returned (mkMutationResult mutated (Some (JDict d)) message)
  | Some v => Rejected v
  | None => Returned (mkMutationResult mutated None message)
  end.

(** A mutator as the chain sees it.  [mutate] edits the request it is handed
    in place, so it yields the request as it is after the call, too. *)
Record Mutator : Type := mkMutator {
  msupports : arg -> Exc bool;
  mutate : arg -> Exc MutationResult * arg
}.

(** [BaseMutator.supports]. *)
Definition BaseMutator_supports (request : arg) : bool := true.

(** [all_patches.append(result.patched)] under [if result.patched]. *)
Definition append_patch (all_patches : list Json) (result : MutationResult)
  : list Json :=
  match patched result with
  | Some p => if truthy p then all_patches ++ [p] else all_patches
  | None => all_patches
  end.

(** The loop of [MutatorChain.mutate], from a given state of the request and
    of the local [all_patches]. *)
Fixpoint MutatorChain_loop (mutators : list Mutator) (request : arg)
  (all_patches : list Json) : Outcome * arg :=
  match mutators with
  | [] =>
      (MutationResult_init true
         (match all_patches with [] => None | _ => Some (JList all_patches) end)
         None,
       request)
  | mutator :: rest =>
      match msupports mutator request with
      | Raise e => (Raised e, request)
      | Ok false => MutatorChain_loop rest request all_patches
      | Ok true =>
          match mutate mutator request with
          | (Raise e, request') => (Raised e, request')
          | (Ok result, request') =>
              if negb (mutated result) then (Returned result, request')
              else MutatorChain_loop rest request' (append_patch all_patches result)
          end
      end
  end.

Definition MutatorChain_mutate (mutators : list Mutator) (request : arg)
  : Outcome * arg :=
  MutatorChain_loop mutators request [].

(** *** [src/mutators/defaults.py] *)

(** [d.update(defaults)] on any value. *)
Definition py_update (v : Json) (defaults : list (string * string)) : Exc Json :=
  match v with
  | JDict d => Ok (JDict (update d defaults))
  | _ => Raise (AttributeError (type_name v) "update")
  end.

(** [v[k] = x] for a string [k]. *)
Definition py_setitem (v : Json) (k : string) (x : Json) : Exc Json :=
  match v with
  | JDict d => Ok (JDict (setitem d k x))
  | JList _ => Raise (TypeError "list indices must be integers or slices, not str")
  | _ => Raise (TypeError ("'" ++ type_name v
                           ++ "' object does not support item assignment"))
  end.

(** The state of the object a mutator was editing when it stopped: the edits
    are made in place, so they are there whether it completed, leaving a dict,
    or raised. *)
Inductive Edit : Type :=
| Done (o : list (string * Json))
| Failed (e : exn) (o : Json).

(** The frame every [mutate] shares: the kind is read from the request, a
    kind other than Pod and Deployment is declined, the object is edited, and
    any exception becomes the message of a mutated=false result.  The request
    that comes back holds the object as the edit left it. *)
Definition mutate_by (edit : string -> Json -> Edit) (request : arg)
  : MutationResult * arg :=
  match (rq <- attr_request request ;;
         kind <- attr_kind_kind rq ;;
         Ok (rq, kind)) with
  | Raise e => (mkMutationResult false None (Some (str_exn e)), request)
  | Ok (rq, kind) =>
      if negb ((kind =? "Pod") || (kind =? "Deployment"))
      then (mkMutationResult false None None, request)
      else
        match edit kind (object rq) with
        | Done obj =>
            (mkMutationResult true (Some (JDict obj)) None,
             with_object request (JDict obj))
        | Failed e obj =>
            (mkMutationResult false None (Some (str_exn e)),
             with_object request obj)
        end
  end.

Definition as_mutator (mutate : arg -> MutationResult * arg) : Mutator :=
  mkMutator (fun r => Ok (BaseMutator_supports r))
    (fun r => let (result, r') := mutate r in (Ok result, r')).

(** [d.get(k, default)] on a dict. *)
Definition get_or (d : list (string * Json)) (k : string) (default : Json) : Json :=
  match lookup k d with
  | Some x => x
  | None => default
  end.

(** **** [DefaultLabelsAnnotationsMutator] *)

Record DefaultLabelsAnnotationsMutator : Type := mkDefaultLabelsAnnotationsMutator {
  default_labels : list (string * string);
  default_annotations : list (string * string)
}.

(** [if defaults: d = metadata.get(key, {}); d.update(defaults);
    metadata[key] = d].  Nothing is written before the last of the three can
    no longer fail. *)
Definition add_defaults (key : string) (defaults : list (string * string))
  (metadata : Json) : Exc Json :=
  match defaults with
  | [] => Ok metadata
  | _ =>
      d <- py_get metadata key (JDict []) ;;
      d <- py_update d defaults ;;
      py_setitem metadata key d
  end.

(** [metadata = holder.get("metadata", {})], the labels, the annotations, and
    [holder["metadata"] = metadata].  A [metadata] found in [holder] is edited
    where it is: when the annotations fail, the new labels are already in
    [holder]; a fresh [{}] only reaches [holder] with the last statement. *)
Definition edit_metadata (self : DefaultLabelsAnnotationsMutator) (holder : Json)
  : Edit :=
  match holder with
  | JDict h =>
      let metadata := get_or h "metadata" (JDict []) in
      match add_defaults "labels" (default_labels self) metadata with
      | Raise e => Failed e holder
      | Ok metadata1 =>
          let holder1 :=
            if has_key "metadata" h
            then JDict (setitem h "metadata" metadata1) else holder in
          match add_defaults "annotations" (default_annotations self) metadata1 with
          | Raise e => Failed e holder1
          | Ok metadata2 => Done (setitem h "metadata" metadata2)
          end
      end
  | _ => Failed (AttributeError (type_name holder) "get") holder
  end.

(** The [Deployment] branch: the same edit on
    [template = obj.get("spec", {}).get("template", {})], then
    [obj["spec"]["template"] = template].  A [template] found in [obj] is
    edited where it is; without a ["spec"] the last statement raises
    [KeyError]. *)
Definition edit_template (self : DefaultLabelsAnnotationsMutator)
  (o : list (string * Json)) : Edit :=
  match get_or o "spec" (JDict []) with
  | JDict s =>
      let template := get_or s "template" (JDict []) in
      let put t := setitem o "spec" (JDict (setitem s "template" t)) in
      match edit_metadata self template with
      | Failed e template1 =>
          Failed e (if has_key "spec" o && has_key "template" s
                    then JDict (put template1) else JDict o)
      | Done template1 =>
          if has_key "spec" o then Done (put (JDict template1))
          else Failed (KeyError "spec") (JDict o)
      end
  | spec => Failed (AttributeError (type_name spec) "get") (JDict o)
  end.

Definition DefaultLabelsAnnotationsMutator_edit
  (self : DefaultLabelsAnnotationsMutator) (kind : string) (obj : Json) : Edit :=
  match edit_metadata self obj with
  | Failed e obj1 => Failed e obj1
  | Done obj1 =>
      if kind =? "Deployment" then edit_template self obj1 else Done obj1
  end.

Definition DefaultLabelsAnnotationsMutator_mutate
  (self : DefaultLabelsAnnotationsMutator) : arg -> MutationResult * arg :=
  mutate_by (DefaultLabelsAnnotationsMutator_edit self).

Definition labels_annotations_mutator (self : DefaultLabelsAnnotationsMutator)
  : Mutator :=
  as_mutator (DefaultLabelsAnnotationsMutator_mutate self).

(** **** The two mutators of the pod spec *)

(** A [for] loop that edits its items in place: the items as the loop left
    them, and the exception that ended it, if one did. *)
Fixpoint edit_each (step : Json -> Exc Json) (items : list Json)
  : list Json * option exn :=
  match items with
  | [] => ([], None)
  | item :: rest =>
      match step item with
      | Raise e => (item :: rest, Some e)
      | Ok item1 =>
          let (rest1, stopped) := edit_each step rest in
          (item1 :: rest1, stopped)
      end
  end.

(** Where [pod_spec] is: [obj.get("spec", {})], and for a Deployment
    [.get("template", {}).get("spec", {})] of that. *)
Definition pod_spec_at (kind : string) (o : list (string * Json)) : Exc Json :=
  let spec := get_or o "spec" (JDict []) in
  if kind =? "Deployment"
  then (t <- py_get spec "template" (JDict []) ;; py_get t "spec" (JDict []))
  else Ok spec.

(** Whether that [pod_spec] is a part of [obj], so that editing it edits
    [obj], or a fresh [{}] that a default provided. *)
Definition pod_spec_attached (kind : string) (o : list (string * Json)) : bool :=
  if kind =? "Deployment" then
    match lookup "spec" o with
    | Some (JDict s) =>
        match lookup "template" s with
        | Some (JDict t) => has_key "spec" t
        | _ => false
        end
    | _ => false
    end
  else has_key "spec" o.

(** [obj["spec"] = pod_spec] for a Pod,
    [obj["spec"]["template"]["spec"] = pod_spec] otherwise. *)
Definition put_pod_spec (kind : string) (o : list (string * Json))
  (pod_spec : Json) : Exc (list (string * Json)) :=
  if kind =? "Pod" then Ok (setitem o "spec" pod_spec) else
  match lookup "spec" o with
  | None => Raise (KeyError "spec")
  | Some (JDict s) =>
      match lookup "template" s with
      | None => Raise (KeyError "template")
      | Some template =>
          t <- py_setitem template "spec" pod_spec ;;
          Ok (setitem o "spec" (JDict (setitem s "template" t)))
      end
  | Some (JList _) =>
      Raise (TypeError "list indices must be integers or slices, not str")
  | Some (JStr _) => Raise (TypeError "string indices must be integers, not 'str'")
  | Some v => Raise (TypeError ("'" ++ type_name v ++ "' object is not subscriptable"))
  end.

(** The body both mutators share: [first] edits [pod_spec] itself, [step]
    edits each container, and the last statement writes [pod_spec] back.
    While [pod_spec] is a part of [obj], [obj] shows every edit at once. *)
Definition edit_pod_spec (first : Json -> Exc Json) (step : Json -> Exc Json)
  (kind : string) (obj : Json) : Edit :=
  match obj with
  | JDict o =>
      match pod_spec_at kind o with
      | Raise e => Failed e obj
      | Ok pod_spec =>
          let seen p :=
            if pod_spec_attached kind o
            then match put_pod_spec kind o p with
                 | Ok o1 => JDict o1
                 | Raise _ => obj
                 end
            else obj in
          match first pod_spec with
          | Raise e => Failed e obj
          | Ok pod_spec1 =>
              match (containers <- py_get pod_spec1 "containers" (JList []) ;;
                     items <- py_iter containers ;;
                     Ok (containers, items)) with
              | Raise e => Failed e (seen pod_spec1)
              | Ok (containers, items) =>
                  let (items1, stopped) := edit_each step items in
                  let pod_spec2 :=
                    match containers, pod_spec1 with
                    | JList _, JDict p =>
                        if has_key "containers" p
                        then JDict (setitem p "containers" (JList items1))
                        else pod_spec1
                    | _, _ => pod_spec1
                    end in
                  match stopped with
                  | Some e => Failed e (seen pod_spec2)
                  | None =>
                      match put_pod_spec kind o pod_spec2 with
                      | Ok o1 => Done o1
                      | Raise e => Failed e (seen pod_spec2)
                      end
                  end
              end
          end
      end
  | _ => Failed (AttributeError (type_name obj) "get") obj
  end.

Record DefaultSecurityContextMutator : Type := mkDefaultSecurityContextMutator {
  run_as_non_root : bool;
  read_only_root_filesystem : bool;
  run_as_user : option Z;
  run_as_group : option Z;
  fs_group : option Z
}.

(** [if value is not None: context[key] = value]. *)
Definition optional (key : string) (value : option Z)
  : list (string * Json) :=
  match value with
  | Some z => [(key, JInt z)]
  | None => []
  end.

Definition get_default_container_security_context
  (self : DefaultSecurityContextMutator) : Json :=
  JDict ([("runAsNonRoot", JBool (run_as_non_root self));
          ("readOnlyRootFilesystem", JBool (read_only_root_filesystem self));
          ("allowPrivilegeEscalation", JBool false)]
         ++ optional "runAsUser" (run_as_user self)
         ++ optional "runAsGroup" (run_as_group self)).

Definition get_default_pod_security_context
  (self : DefaultSecurityContextMutator) : Json :=
  JDict ([("runAsNonRoot", JBool (run_as_non_root self))]
         ++ optional "runAsUser" (run_as_user self)
         ++ optional "runAsGroup" (run_as_group self)
         ++ optional "fsGroup" (fs_group self)).

Definition DefaultSecurityContextMutator_edit
  (self : DefaultSecurityContextMutator) : string -> Json -> Edit :=
  edit_pod_spec
    (fun pod_spec =>
       py_setitem pod_spec "securityContext" (get_default_pod_security_context self))
    (fun container =>
       py_setitem container "securityContext"
         (get_default_container_security_context self)).

Definition DefaultSecurityContextMutator_mutate
  (self : DefaultSecurityContextMutator) : arg -> MutationResult * arg :=
  mutate_by (DefaultSecurityContextMutator_edit self).

Record DefaultResourcesMutator : Type := mkDefaultResourcesMutator {
  default_requests : list (string * string);
  default_limits : list (string * string)
}.

(** A [Dict[str, str]] of the configuration as a value. *)
Definition str_dict (d : list (string * string)) : Json :=
  JDict (map (fun kv => (fst kv, JStr (snd kv))) d).

Definition get_default_resources (self : DefaultResourcesMutator) : Json :=
  JDict ((match default_requests self with
          | [] => []
          | d => [("requests", str_dict d)]
          end)
         ++ (match default_limits self with
             | [] => []
             | d => [("limits", str_dict d)]
             end)).

Definition DefaultResourcesMutator_edit (self : DefaultResourcesMutator)
  : string -> Json -> Edit :=
  edit_pod_spec (fun pod_spec => Ok pod_spec)
    (fun container =>
       absent <- py_not_in "resources" container ;;
       if absent
       then py_setitem container "resources" (get_default_resources self)
       else Ok container).

Definition DefaultResourcesMutator_mutate (self : DefaultResourcesMutator)
  : arg -> MutationResult * arg :=
  mutate_by (DefaultResourcesMutator_edit self).

(** The mutators of the repository, as chain members. *)
Inductive DefaultMutator : Type :=
| LabelsAnnotations (self : DefaultLabelsAnnotationsMutator)
| SecurityContexts (self : DefaultSecurityContextMutator)
| Resources (self : DefaultResourcesMutator).

Definition default_edit (m : DefaultMutator) : string -> Json -> Edit :=
  match m with
  | LabelsAnnotations self => DefaultLabelsAnnotationsMutator_edit self
  | SecurityContexts self => DefaultSecurityContextMutator_edit self
  | Resources self => DefaultResourcesMutator_edit self
  end.

Definition default_mutate (m : DefaultMutator) : arg -> MutationResult * arg :=
  mutate_by (default_edit m).

Definition default_mutator (m : DefaultMutator) : Mutator :=
  as_mutator (default_mutate m).

(** ** Vocabulary of the statements *)

(** The warnings a result carries, none when the field is absent. *)
Definition warnings_of (result : ValidationResult) : list string :=
  match warnings result with
  | Some ws => ws
  | None => []
  end.

(** [passes request vs ws]: run on [request], every validator of [vs] is
    either skipped by its [supports] or returns an allowing result, and [ws]
    are the warnings of the evaluated ones, in order. *)
Inductive passes (request : Json) : list Validator -> list string -> Prop :=
| passes_nil : passes request [] []
| passes_skip v vs ws :
    supports v request = Ok false ->
    passes request vs ws ->
    passes request (v :: vs) ws
| passes_eval v vs result ws :
    supports v request = Ok true ->
    validate v request = Ok result ->
    allowed result = true ->
    passes request vs ws ->
    passes request (v :: vs) (warnings_of result ++ ws).

(** The [warnings] field built from a list: omitted when empty. *)
Definition warnings_field (ws : list string) : option (list string) :=
  match ws with
  | [] => None
  | _ => Some ws
  end.

(** What is wrong with an envelope, if anything: no ["request"] at all, or a
    ["request"] that is empty or a dict without ["object"]. *)
Definition malformed (envelope : list (string * Json)) : option string :=
  match lookup "request" envelope with
  | None => Some "Invalid admission request format"
  | Some request =>
      if negb (truthy request) then Some "Missing request object" else
      match request with
      | JDict r =>
          if has_key "object" r then None else Some "Missing request object"
      | _ => None
      end
  end.

(** The kind an envelope names at [request.kind.kind]. *)
Definition kind_of (envelope : list (string * Json)) : option string :=
  match lookup "request" envelope with
  | Some (JDict r) =>
      match lookup "kind" r with
      | Some (JDict k) =>
          match lookup "kind" k with
          | Some (JStr s) => Some s
          | _ => None
          end
      | _ => None
      end
  | _ => None
  end.

(** *** SecurityContextRule, in the words of the specification *)

(** A field that "is true". *)
Definition is_true (d : list (string * Json)) (k : string) : bool :=
  match lookup k d with
  | Some (JBool true) => true
  | _ => false
  end.

(** [runAsUser == 0]. *)
Definition runs_as_root (security_context : list (string * Json)) : bool :=
  match lookup "runAsUser" security_context with
  | Some (JInt 0) => true
  | _ => false
  end.

(** The securityContext of a container; an absent one has every field
    unset. *)
Definition security_context_of (container : Json) : list (string * Json) :=
  match container with
  | JDict c =>
      match lookup "securityContext" c with
      | Some (JDict sc) => sc
      | _ => []
      end
  | _ => []
  end.

Definition SecurityContextRule_container (cfg : SecurityContextValidator)
  (container : Json) : option string :=
  let sc := security_context_of container in
  if enforce_privileged cfg && is_true sc "privileged"
  then Some "Privileged containers are not allowed"
  else if enforce_non_root cfg && runs_as_root sc
  then Some "Running as root is not allowed"
  else if enforce_readonly_root cfg && negb (is_true sc "readOnlyRootFilesystem")
  then Some "Root filesystem must be read-only"
  else None.

(** The first violation in declaration order. *)
Fixpoint first_violation (rule : Json -> option string) (containers : list Json)
  : option string :=
  match containers with
  | [] => None
  | c :: rest =>
      match rule c with
      | Some text => Some text
      | None => first_violation rule rest
      end
  end.

(** The containers of a pod spec. *)
Definition containers_of (spec : list (string * Json)) : list Json :=
  match lookup "containers" spec with
  | Some (JList cs) => cs
  | _ => []
  end.

Definition SecurityContextRule (cfg : SecurityContextValidator)
  (spec : list (string * Json)) : option string :=
  if enforce_host_network cfg && is_true spec "hostNetwork"
  then Some "Host network access is not allowed"
  else first_violation (SecurityContextRule_container cfg) (containers_of spec).

(** Field types as Kubernetes declares them: [null] counts as unset. *)
Definition bool_field (d : list (string * Json)) (k : string) : bool :=
  match lookup k d with
  | None | Some JNone | Some (JBool _) => true
  | _ => false
  end.

Definition int_field (d : list (string * Json)) (k : string) : bool :=
  match lookup k d with
  | None | Some JNone | Some (JInt _) => true
  | _ => false
  end.

Definition typed_security_context (container : Json) : bool :=
  match container with
  | JDict c =>
      match lookup "securityContext" c with
      | None => true
      | Some (JDict sc) =>
          bool_field sc "privileged" && int_field sc "runAsUser"
          && bool_field sc "readOnlyRootFilesystem"
      | _ => false
      end
  | _ => false
  end.

Definition typed_containers (spec : list (string * Json))
  (typed : Json -> bool) : bool :=
  match lookup "containers" spec with
  | None => true
  | Some (JList cs) => forallb typed cs
  | _ => false
  end.

Definition typed_security_spec (spec : list (string * Json)) : bool :=
  bool_field spec "hostNetwork" && typed_containers spec typed_security_context.

(** *** ImagePolicyRule, in the words of the specification *)

(** "the substring before the first [/] when a [/] is present and a default
    registry token otherwise". *)
Definition registry_of (image : string) : string :=
  if contains "/" image then before_first "/" image else "docker.io".

(** The text after the last [:]. *)
Fixpoint tag_of (image : string) : string :=
  match image with
  | EmptyString => EmptyString
  | String c rest =>
      if contains ":" rest then tag_of rest
      else if Ascii.eqb c ":" then rest else EmptyString
  end.

(** Check (c) as the specification words it: no [:], or the tag equals
    [latest]. *)
Definition latest_by_tag (image : string) : bool :=
  negb (contains ":" image) || (tag_of image =? "latest").

(** Check (c) as the code has it: no [:], or [:latest] somewhere in the
    image. *)
Definition latest_by_substring (image : string) : bool :=
  negb (contains ":" image) || contains ":latest" image.

Definition name_of (container : Json) : string :=
  match container with
  | JDict c => py_str (get_or c "name" JNone)
  | _ => ""
  end.

Definition image_of (container : Json) : string :=
  match container with
  | JDict c =>
      match lookup "image" c with
      | Some (JStr s) => s
      | _ => ""
      end
  | _ => ""
  end.

Definition ImagePolicyRule_container (latest : string -> bool)
  (cfg : ImagePolicyValidator) (container : Json) : option string :=
  let image := image_of container in
  if image =? ""
  then Some ("Container " ++ name_of container ++ " has no image specified")
  else if negb (existsb (String.eqb (registry_of image)) (allowed_registries cfg))
  then Some ("Registry " ++ registry_of image
             ++ " is not allowed. Allowed registries: "
             ++ join ", " (allowed_registries cfg))
  else if deny_latest_tag cfg && latest image
  then Some ("Latest tag is not allowed for image " ++ image)
  else None.

Definition ImagePolicyRule (latest : string -> bool) (cfg : ImagePolicyValidator)
  (spec : list (string * Json)) : option string :=
  first_violation (ImagePolicyRule_container latest cfg) (containers_of spec).

Definition typed_image (container : Json) : bool :=
  match container with
  | JDict c =>
      match lookup "image" c with
      | None | Some (JStr _) => true
      | _ => false
      end
  | _ => false
  end.

Definition typed_image_spec (spec : list (string * Json)) : bool :=
  typed_containers spec typed_image.

(** The result a rule's verdict stands for. *)
Definition verdict (violation : option string) (passed : string)
  : ValidationResult :=
  match violation with
  | Some text => deny text
  | None => allow_with passed
  end.

(** *** Results and chains of mutators *)

(** A result that says why, when it disallows. *)
Definition explained (result : ValidationResult) : Prop :=
  allowed result = false -> message result <> None.

(** [runs ms a ps a' ps']: started on the request [a] with the patches [ps]
    collected so far, every mutator of [ms] is either skipped by its
    [supports] or returns with mutated=true; [a'] is the request and [ps'] are
    the collected patches after the last of them. *)
Inductive runs : list Mutator -> arg -> list Json -> arg -> list Json -> Prop :=
| runs_nil a ps : runs [] a ps a ps
| runs_skip m ms a ps a' ps' :
    msupports m a = Ok false ->
    runs ms a ps a' ps' ->
    runs (m :: ms) a ps a' ps'
| runs_step m ms a result a1 ps a' ps' :
    msupports m a = Ok true ->
    mutate m a = (Ok result, a1) ->
    mutated result = true ->
    runs ms a1 (append_patch ps result) a' ps' ->
    runs (m :: ms) a ps a' ps'.



(** [carries metadata key defaults]: the dict under [key] already holds every
    default, so that updating it changes nothing; no defaults are always
    carried. *)
Definition carries (metadata : list (string * Json)) (key : string)
  (defaults : list (string * string)) : Prop :=
  defaults = []
  \/ exists d, lookup key metadata = Some (JDict d) /\ update d defaults = d.

(** A JSON Patch operation: a dict with an [op] among add, replace and remove
    and a string [path]. *)
Definition patch_operation (v : Json) : bool :=
  match v with
  | JDict d =>
      match lookup "op" d, lookup "path" d with
      | Some (JStr op), Some (JStr _) =>
          (op =? "add") || (op =? "replace") || (op =? "remove")
      | _, _ => false
      end
  | _ => false
  end.

(** A container that already has the default security context. *)
Definition secured (self : DefaultSecurityContextMutator) (container : Json)
  : Prop :=
  exists c,
    container = JDict c
    /\ lookup "securityContext" c
       = Some (get_default_container_security_context self).

(** A container that already has a [resources] entry. *)
Definition resourced (container : Json) : Prop :=
  exists c, container = JDict c /\ has_key "resources" c = true.


(** ** Validators, mutators and requests used as examples *)

(** A validator that passes with the given warnings, one that disallows, one
    that raises, and one that supports nothing. *)
Definition warning_validator (ws : list string) : Validator :=
  mkValidator (fun _ => Ok true)
    (fun _ => Ok (mkValidationResult true None (Some ws))).

Definition denying_validator (text : string) : Validator :=
  mkValidator (fun _ => Ok true) (fun _ => Ok (deny text)).

Definition raising_validator : Validator :=
  mkValidator (fun _ => Raise (OtherError "unreachable"))
    (fun _ => Raise (OtherError "unreachable")).

Definition unsupporting_validator : Validator :=
  mkValidator (fun _ => Ok false) (fun _ => Raise (OtherError "unreachable")).

Definition pod_envelope (kind : string) (obj : Json) : list (string * Json) :=
  [("apiVersion", JStr "admission.k8s.io/v1");
   ("kind", JStr "AdmissionReview");
   ("request",
    JDict [("uid", JStr "test-uid");
           ("kind", JDict [("group", JStr ""); ("version", JStr "v1");
                           ("kind", JStr kind)]);
           ("operation", JStr "CREATE");
           ("object", obj)])].

(** A pod that breaks no rule of the security policy. *)
Definition compliant_pod : Json :=
  JDict [("metadata", JDict [("name", JStr "test-pod")]);
         ("spec",
          JDict [("containers",
                  JList [JDict [("name", JStr "nginx");
                                ("image", JStr "docker.io/nginx:1.19");
                                ("securityContext",
                                 JDict [("privileged", JBool false);
                                        ("runAsUser", JInt 1000);
                                        ("readOnlyRootFilesystem", JBool true)])]])])].

Definition strict_security : SecurityContextValidator :=
  mkSecurityContextValidator true true true true.

Definition default_image_policy : ImagePolicyValidator :=
  ImagePolicyValidator_init None true.

(** A validator on the base entry point that supports every request. *)
Definition base_image_policy : Validator :=
  mkValidator (fun r => Ok (BaseValidator_supports r))
    (fun r => Ok (BaseValidator_validate
                    (fun r => Ok (BaseValidator_supports r))
                    (fun r => Ok (ImagePolicyValidator__validate
                                    default_image_policy r))
                    r)).

Definition multiple_containers_pod : Json :=
  JDict [("spec",
          JDict [("containers",
                  JList [JDict [("name", JStr "container1");
                                ("securityContext",
                                 JDict [("privileged", JBool false);
                                        ("runAsUser", JInt 1000);
                                        ("readOnlyRootFilesystem", JBool true)])];
                         JDict [("name", JStr "container2");
                                ("securityContext",
                                 JDict [("privileged", JBool true);
                                        ("runAsUser", JInt 0);
                                        ("readOnlyRootFilesystem", JBool false)])]])])].

Definition pod_with_images (images : list (string * string)) : Json :=
  JDict [("spec",
          JDict [("containers",
                  JList (map (fun ni => JDict [("name", JStr (fst ni));
                                               ("image", JStr (snd ni))])
                           images))])].

(** A review model as the mutator tests build it, with a [GroupVersionKind]
    for its kind. *)
Definition review (kind : string) (obj : Json) : arg :=
  ArgReview (mkAdmissionReview
               (mkAdmissionRequest (KindModel (mkGroupVersionKind "" "v1" kind)) obj)).


(** A mutator that accepts every request and reports success without a
    patch. *)
Definition succeeding_mutator : Mutator :=
  mkMutator (fun _ => Ok true)
    (fun a => (Ok (mkMutationResult true None None), a)).

Definition raising_mutator : Mutator :=
  mkMutator (fun _ => Raise (OtherError "unreachable"))
    (fun a => (Raise (OtherError "unreachable"), a)).

Definition unsupporting_mutator : Mutator :=
  mkMutator (fun _ => Ok false)
    (fun a => (Raise (OtherError "unreachable"), a)).

Definition app_label : DefaultLabelsAnnotationsMutator :=
  mkDefaultLabelsAnnotationsMutator [("app", "webhook")] [("owner", "test-user")].

Definition labelled_pod : Json :=
  JDict [("metadata",
          JDict [("name", JStr "test-pod");
                 ("labels", JDict [("app", JStr "webhook")]);
                 ("annotations", JDict [("owner", JStr "test-user")])]);
         ("spec", JDict [("containers", JList [JDict [("name", JStr "nginx")]])])].

Definition default_security : DefaultSecurityContextMutator :=
  mkDefaultSecurityContextMutator true true (Some 1000%Z) (Some 2000%Z)
    (Some 3000%Z).

Definition default_resources : DefaultResourcesMutator :=
  mkDefaultResourcesMutator [("cpu", "100m"); ("memory", "128Mi")]
    [("cpu", "200m"); ("memory", "256Mi")].


(** ** Vocabulary of the further properties *)

(** A request whose pod [_validate] refuses at once: no ["object"], an empty
    one, or a dict without ["spec"]. *)
Definition no_pod_spec (request : list (string * Json)) : bool :=
  match lookup "object" request with
  | None => true
  | Some pod =>
      negb (truthy pod)
      || match pod with
         | JDict p => negb (has_key "spec" p)
         | _ => false
         end
  end.

(** A value a [for] loop cannot run over. *)
Definition not_iterable (v : Json) : bool :=
  match v with
  | JNone | JBool _ | JInt _ => true
  | _ => false
  end.

(** *** The resource requirements of a container, read off [_validate] *)

(** The dict under [k], empty when [k] is absent or holds something else. *)
Definition dict_at (d : list (string * Json)) (k : string)
  : list (string * Json) :=
  match lookup k d with
  | Some (JDict x) => x
  | _ => []
  end.

(** A key that is absent or holds a dict. *)
Definition dict_field (d : list (string * Json)) (k : string) : bool :=
  match lookup k d with
  | None | Some (JDict _) => true
  | _ => false
  end.

Definition typed_resources (container : Json) : bool :=
  match container with
  | JDict c =>
      dict_field c "resources"
      && dict_field (dict_at c "resources") "limits"
      && dict_field (dict_at c "resources") "requests"
  | _ => false
  end.

Definition ResourceRequirementsRule_container
  (cfg : ResourceRequirementsValidator) (container : Json) : option string :=
  match container with
  | JDict c =>
      let resources := dict_at c "resources" in
      let limits := dict_at resources "limits" in
      let requests := dict_at resources "requests" in
      let must what := Some ("Container " ++ name_of container
                             ++ " must specify " ++ what) in
      if negb (enforce_limits cfg) then None
      else match resources with
           | [] => must "resource requirements"
           | _ =>
               if negb (has_key "cpu" limits) then must "CPU limits"
               else if negb (has_key "memory" limits) then must "memory limits"
               else if negb (has_key "cpu" requests) then must "CPU requests"
               else if negb (has_key "memory" requests)
               then must "memory requests"
               else None
           end
  | _ => None
  end.

(** A pod spec whose second container has a cpu limit and nothing else. *)
Definition partial_resources_spec : list (string * Json) :=
  [("containers",
    JList [JDict [("name", JStr "full");
                  ("resources",
                   JDict [("limits",
                           JDict [("cpu", JStr "1"); ("memory", JStr "1Gi")]);
                          ("requests",
                           JDict [("cpu", JStr "100m");
                                  ("memory", JStr "128Mi")])])];
           JDict [("name", JStr "partial");
                  ("resources", JDict [("limits", JDict [("cpu", JStr "1")])])];
           JDict [("name", JStr "bare")]])].

(** *** Merging defaults *)

(** The value [defaults] gives the key [k], if any; the last binding of a key
    is the one that stays. *)
Fixpoint merged (k : string) (defaults : list (string * string))
  : option string :=
  match defaults with
  | [] => None
  | (k', v) :: rest =>
      match merged k rest with
      | Some w => Some w
      | None => if k =? k' then Some v else None
      end
  end.

(** Whether the defaults can be merged under [key]: there are none, or [key]
    is absent or holds a dict. *)
Definition mergeable (defaults : list (string * string)) (key : string)
  (metadata : list (string * Json)) : bool :=
  match defaults with
  | [] => true
  | _ => dict_field metadata key
  end.

(** [metadata] with the defaults merged under [key]. *)
Definition merge_into (metadata : list (string * Json)) (key : string)
  (defaults : list (string * string)) : list (string * Json) :=
  match defaults with
  | [] => metadata
  | _ => setitem metadata key (JDict (update (dict_at metadata key) defaults))
  end.

(** Whether the labels mutator can edit the metadata of [holder]. *)
Definition labels_applicable (self : DefaultLabelsAnnotationsMutator)
  (holder : Json) : bool :=
  match holder with
  | JDict h =>
      dict_field h "metadata"
      && mergeable (default_labels self) "labels" (dict_at h "metadata")
      && mergeable (default_annotations self) "annotations"
           (dict_at h "metadata")
  | _ => false
  end.

(** The metadata the labels mutator leaves in a holder it can edit. *)
Definition merged_metadata (self : DefaultLabelsAnnotationsMutator)
  (h : list (string * Json)) : list (string * Json) :=
  merge_into (merge_into (dict_at h "metadata") "labels" (default_labels self))
    "annotations" (default_annotations self).

(** Whether the labels mutator gets through the metadata of [holder]: with
    nothing to merge it does not look into the metadata at all. *)
Definition labels_succeed (self : DefaultLabelsAnnotationsMutator)
  (holder : Json) : bool :=
  match holder with
  | JDict h =>
      match default_labels self, default_annotations self with
      | [], [] => true
      | _, _ => labels_applicable self holder
      end
  | _ => false
  end.

(** A pod that has a label the defaults overwrite and one they leave. *)
Definition overlapping_pod : list (string * Json) :=
  [("metadata",
    JDict [("name", JStr "test-pod");
           ("labels", JDict [("app", JStr "old"); ("tier", JStr "web")])]);
   ("spec", JDict [("containers", JList [JDict [("name", JStr "nginx")]])])].

(** A Deployment whose pod template runs a privileged container from an
    unlisted registry with the tag latest and no resources. *)
Definition privileged_deployment : list (string * Json) :=
  [("metadata", JDict [("name", JStr "web")]);
   ("spec",
    JDict [("replicas", JInt 2);
           ("template",
            JDict [("spec",
                    JDict [("hostNetwork", JBool true);
                           ("containers",
                            JList [JDict [("name", JStr "nginx");
                                          ("image", JStr "evil.io/nginx:latest");
                                          ("securityContext",
                                           JDict [("privileged", JBool true)])]])])])])].

(** *** The pod spec under the two mutators that edit it *)

Definition is_dict (v : Json) : bool :=
  match v with
  | JDict _ => true
  | _ => false
  end.

(** [spec] with [f] applied to each container of its list. *)
Definition map_containers (f : Json -> Json) (spec : list (string * Json))
  : list (string * Json) :=
  match lookup "containers" spec with
  | Some (JList cs) => setitem spec "containers" (JList (map f cs))
  | _ => spec
  end.

(** A container with the default security context put in. *)
Definition secure (self : DefaultSecurityContextMutator) (container : Json)
  : Json :=
  match container with
  | JDict c =>
      JDict (setitem c "securityContext"
               (get_default_container_security_context self))
  | _ => container
  end.

(** A pod spec with the default security contexts put in. *)
Definition secured_spec (self : DefaultSecurityContextMutator)
  (spec : list (string * Json)) : list (string * Json) :=
  map_containers (secure self)
    (setitem spec "securityContext" (get_default_pod_security_context self)).

(** A container with the default resources put in where it has none. *)
Definition fill (self : DefaultResourcesMutator) (container : Json) : Json :=
  match container with
  | JDict c =>
      if has_key "resources" c then container
      else JDict (setitem c "resources" (get_default_resources self))
  | _ => container
  end.

(** A pod that has a container with resources and one without. *)
Definition half_resourced_pod : list (string * Json) :=
  [("metadata", JDict [("name", JStr "test-pod")]);
   ("spec",
    JDict [("containers",
            JList [JDict [("name", JStr "nginx");
                          ("resources", JDict [("limits", JDict [("cpu", JStr "2")])])];
                   JDict [("name", JStr "sidecar");
                          ("securityContext", JDict [("privileged", JBool true)])]])])].

(** A container, a dict, that has no ["resources"] key. *)
Definition bare (container : Json) : bool :=
  match container with
  | JDict c => negb (has_key "resources" c)
  | _ => false
  end.

(** Defaults that name both a cpu and a memory quantity. *)
Definition complete (defaults : list (string * string)) : bool :=
  existsb (String.eqb "cpu") (map fst defaults)
  && existsb (String.eqb "memory") (map fst defaults).

(** * Properties *)

(** ** The validation chain *)

Lemma extend_warnings_app (acc : list string) (result : ValidationResult) :
  extend_warnings acc result = (acc ++ warnings_of result)%list.
Proof.
  unfold extend_warnings, warnings_of.
  destruct (warnings result) as [[|w ws]|]; simpl; auto using app_nil_r.
Qed.

(** A passing prefix only adds its warnings to the accumulator. *)
Lemma loop_passes (request : Json) (pre : list Validator) (ws : list string) :
  passes request pre ws ->
  forall rest acc,
    ValidatorChain_loop (pre ++ rest) request acc
    = ValidatorChain_loop rest request (acc ++ ws)%list.
Proof.
  induction 1 as [|v vs ws Hs _ IH|v vs result ws Hs Hv Ha _ IH];
    intros rest acc; simpl.
  - now rewrite app_nil_r.
  - rewrite Hs; simpl. apply IH.
  - rewrite Hs, Hv; simpl. rewrite Ha; simpl.
    rewrite IH, extend_warnings_app. now rewrite app_assoc.
Qed.

Lemma loop_denies (request : Json) (v : Validator) (result : ValidationResult)
  (post : list Validator) (acc : list string) :
  supports v request = Ok true ->
  validate v request = Ok result ->
  allowed result = false ->
  ValidatorChain_loop (v :: post) request acc = Ok result.
Proof.
  intros Hs Hv Ha. simpl. rewrite Hs, Hv; simpl. now rewrite Ha.
Qed.

(** C4.  The validation chain short-circuits.  Take any prefix of validators
    that are skipped (their [supports] is false) or pass on the request, with
    [ws] the warnings of the evaluated ones in order.  Then a next validator
    that is supported and disallows has its own result returned, whatever
    follows it in the list; and when the prefix is the whole list the chain
    returns allowed=true with no message and the warnings [ws], the field
    omitted when [ws] is empty. *)
Theorem ValidatorChain_short_circuit (request : Json) (pre : list Validator)
  (ws : list string) :
  passes request pre ws ->
  (forall v result post,
      supports v request = Ok true ->
      validate v request = Ok result ->
      allowed result = false ->
      ValidatorChain_validate (pre ++ v :: post) request = Ok result)
  /\ ValidatorChain_validate pre request
     = Ok (mkValidationResult true None (warnings_field ws)).
Proof.
  intros Hp. unfold ValidatorChain_validate. split.
  - intros v result post Hs Hv Ha.
    rewrite (loop_passes request pre ws Hp). now apply loop_denies.
  - rewrite <- (app_nil_r pre), (loop_passes request pre ws Hp). simpl.
    now destruct ws.
Qed.

Lemma ValidatorChain_short_circuit_witness :
  ValidatorChain_validate
    ([warning_validator ["first"]; unsupporting_validator;
      warning_validator ["second"; "third"]]
     ++ denying_validator "no" :: [raising_validator]) JNone
  = Ok (deny "no")
  /\ ValidatorChain_validate
       [warning_validator ["first"]; unsupporting_validator;
        warning_validator ["second"; "third"]] JNone
     = Ok (mkValidationResult true None (Some ["first"; "second"; "third"])).
Proof.
  assert (H : passes JNone
                [warning_validator ["first"]; unsupporting_validator;
                 warning_validator ["second"; "third"]]
                ["first"; "second"; "third"]).
  { apply (passes_eval JNone (warning_validator ["first"]) _
             (mkValidationResult true None (Some ["first"]))
             ["second"; "third"]); try reflexivity.
    apply passes_skip; [reflexivity|].
    apply (passes_eval JNone (warning_validator ["second"; "third"]) _
             (mkValidationResult true None (Some ["second"; "third"])) []);
      try reflexivity.
    apply passes_nil. }
  destruct (ValidatorChain_short_circuit JNone _ _ H) as [Hdeny Hpass].
  split.
  - apply Hdeny; reflexivity.
  - exact Hpass.
Defined.

Lemma kind_of_supports (envelope : list (string * Json)) :
  kind_of envelope = Some "Pod" \/ kind_of envelope = Some "Deployment" ->
  kind_supports (JDict envelope) = true.
Proof.
  unfold kind_of, kind_supports. simpl.
  destruct (lookup "request" envelope) as [[| | | | |r]|]; simpl;
    try (intros [H|H]; discriminate H).
  destruct (lookup "kind" r) as [[| | | | |k]|]; simpl;
    try (intros [H|H]; discriminate H).
  destruct (lookup "kind" k) as [[| | |s| |]|]; simpl;
    try (intros [H|H]; discriminate H).
  intros [H|H]; injection H as ->; reflexivity.
Qed.

(** The overriding [validate] fails on any plain value: it has no attribute
    [request]. *)
Lemma SecurityContextValidator_validate_value (self : SecurityContextValidator)
  (j : Json) :
  SecurityContextValidator_validate self (ArgValue j)
  = deny ("'" ++ type_name j ++ "' object has no attribute 'request'").
Proof. reflexivity. Qed.

(** A chain that reaches a member which is supported and disallows cannot
    return an allowing result. *)
Lemma loop_with_denier (request : Json) (v : Validator)
  (denial : ValidationResult) :
  supports v request = Ok true ->
  validate v request = Ok denial ->
  allowed denial = false ->
  forall vs acc result,
    In v vs ->
    ValidatorChain_loop vs request acc = Ok result ->
    allowed result = false.
Proof.
  intros Hs Hv Ha. induction vs as [|u vs IH]; intros acc result Hin; simpl.
  - destruct Hin.
  - destruct (supports u request) as [[|]|e] eqn:Eu; simpl; try discriminate.
    + destruct (validate u request) as [res|e] eqn:Ev; simpl; try discriminate.
      destruct (allowed res) eqn:Er; simpl.
      * destruct Hin as [->|Hin]; [congruence | now apply IH].
      * now intros [= <-].
    + destruct Hin as [->|Hin]; [congruence | now apply IH].
Qed.

(** C5.  For every request dict whose kind is Pod or Deployment, a chain
    that holds a SecurityContextValidator never returns an allowing result,
    whatever the pod spec holds; and when the validators before it are skipped
    or pass, the result is the denial whose message is the text of the
    AttributeError raised by [request.request] on a dict: the checks of
    [_validate] are not reached. *)
Theorem SecurityContextValidator_denies_in_chain
  (self : SecurityContextValidator) (envelope : list (string * Json)) :
  kind_of envelope = Some "Pod" \/ kind_of envelope = Some "Deployment" ->
  (forall pre post ws,
      passes (JDict envelope) pre ws ->
      ValidatorChain_validate (pre ++ as_validator (SecurityContext self) :: post)
        (JDict envelope)
      = Ok (deny "'dict' object has no attribute 'request'"))
  /\ (forall vs result,
      In (as_validator (SecurityContext self)) vs ->
      ValidatorChain_validate vs (JDict envelope) = Ok result ->
      allowed result = false).
Proof.
  intros Hk. pose proof (kind_of_supports envelope Hk) as Hs.
  assert (Hsup : supports (as_validator (SecurityContext self)) (JDict envelope)
                 = Ok true) by (simpl; now rewrite Hs).
  split.
  - intros pre post ws Hp. unfold ValidatorChain_validate.
    rewrite (loop_passes _ pre ws Hp). now apply loop_denies.
  - intros vs result Hin. unfold ValidatorChain_validate.
    now apply (loop_with_denier (JDict envelope)
                 (as_validator (SecurityContext self))
                 (deny "'dict' object has no attribute 'request'")).
Qed.

Lemma SecurityContextValidator_denies_in_chain_witness :
  SecurityContextValidator__validate strict_security
    (JDict [("object", compliant_pod)])
  = allow_with "Security context validation passed"
  /\ ValidatorChain_validate [as_validator (SecurityContext strict_security)]
       (JDict (pod_envelope "Pod" compliant_pod))
     = Ok (deny "'dict' object has no attribute 'request'").
Proof.
  split; [reflexivity|].
  apply (proj1 (SecurityContextValidator_denies_in_chain strict_security
                  (pod_envelope "Pod" compliant_pod) (or_introl eq_refl))
           [] [] [] (passes_nil _)).
Defined.

(** ** Malformed envelopes *)

(** C1, refuted as stated.  The chain asks [supports] before it calls
    [validate], and [supports] of the policy validators is false when no kind
    can be read: an envelope with no [request], and one whose [request] has
    neither kind nor [object], are both allowed by the chain. *)
Lemma ValidatorChain_allows_malformed :
  malformed [] = Some "Invalid admission request format"
  /\ ValidatorChain_validate [as_validator (ImagePolicy default_image_policy)]
       (JDict [])
     = Ok (mkValidationResult true None None)
  /\ malformed [("request", JDict [("uid", JStr "test-uid")])]
     = Some "Missing request object"
  /\ ValidatorChain_validate [as_validator (ImagePolicy default_image_policy)]
       (JDict [("request", JDict [("uid", JStr "test-uid")])])
     = Ok (mkValidationResult true None None).
Proof. repeat split. Qed.

Lemma missing_dict (k : string) (d : list (string * Json)) :
  missing k (JDict d) = Ok (negb (has_key k d)).
Proof. destruct d as [|kv d]; reflexivity. Qed.

Lemma missing_falsy (k : string) (v : Json) :
  truthy v = false -> missing k v = Ok true.
Proof. unfold missing. now intros ->. Qed.

Lemma base_validate_malformed (sup : Json -> Exc bool)
  (val : Json -> Exc ValidationResult) (envelope : list (string * Json))
  (text : string) :
  malformed envelope = Some text ->
  BaseValidator_validate sup val (JDict envelope) = deny text.
Proof.
  unfold malformed, BaseValidator_validate.
  rewrite missing_dict. unfold py_get.
  replace (has_key "request" envelope)
    with (match lookup "request" envelope with Some _ => true | None => false end)
    by reflexivity.
  destruct (lookup "request" envelope) as [request|]; cbn [negb bind try_except].
  - destruct (truthy request) eqn:Ht; cbn [negb].
    + destruct request as [| | | | |r]; try (intros H; discriminate H).
      rewrite missing_dict.
      destruct (has_key "object" r); cbn [negb bind try_except];
        [intros H; discriminate H | now intros [= <-]].
    + rewrite (missing_falsy "object" request Ht). cbn [bind try_except].
      now intros [= <-].
  - now intros [= <-].
Qed.

(** C1, amended.  The [validate] entry point of the base class fails closed
    on a malformed envelope, for every [supports] and [_validate] of the
    subclass: without a [request] the result is allowed=false with "Invalid
    admission request format", and with a [request] that is empty or lacks
    [object] it is allowed=false with "Missing request object".  The chain
    returns that result when the first validator whose [supports] accepts the
    request uses this entry point. *)
Theorem BaseValidator_fails_closed (sup : Json -> Exc bool)
  (val : Json -> Exc ValidationResult) (envelope : list (string * Json))
  (text : string) :
  malformed envelope = Some text ->
  BaseValidator_validate sup val (JDict envelope) = deny text
  /\ (forall pre v post,
      Forall (fun u => supports u (JDict envelope) = Ok false) pre ->
      supports v (JDict envelope) = Ok true ->
      validate v (JDict envelope)
      = Ok (BaseValidator_validate sup val (JDict envelope)) ->
      ValidatorChain_validate (pre ++ v :: post) (JDict envelope)
      = Ok (deny text)).
Proof.
  intros Hm. pose proof (base_validate_malformed sup val envelope text Hm) as Hb.
  split; [exact Hb|].
  intros pre v post Hpre Hs Hv. unfold ValidatorChain_validate.
  assert (Hp : passes (JDict envelope) pre []).
  { induction Hpre; [constructor | now apply passes_skip]. }
  rewrite (loop_passes _ pre [] Hp). rewrite Hb in Hv.
  now apply loop_denies.
Qed.

Lemma BaseValidator_fails_closed_witness :
  ImagePolicyValidator_validate default_image_policy
    (JDict [("request", JDict [("uid", JStr "test-uid")])])
  = deny "Missing request object"
  /\ ValidatorChain_validate
       ([unsupporting_validator] ++ base_image_policy :: [raising_validator])
       (JDict [("apiVersion", JStr "admission.k8s.io/v1")])
     = Ok (deny "Invalid admission request format").
Proof.
  split.
  - apply (proj1 (BaseValidator_fails_closed
                    (fun r => Ok (kind_supports r))
                    (fun r => Ok (ImagePolicyValidator__validate
                                    default_image_policy r))
                    [("request", JDict [("uid", JStr "test-uid")])]
                    "Missing request object" eq_refl)).
  - apply (proj2 (BaseValidator_fails_closed
                    (fun r => Ok (BaseValidator_supports r))
                    (fun r => Ok (ImagePolicyValidator__validate
                                    default_image_policy r))
                    [("apiVersion", JStr "admission.k8s.io/v1")]
                    "Invalid admission request format" eq_refl)).
    + repeat constructor.
    + reflexivity.
    + reflexivity.
Defined.

(** ** Messages of validation results *)

Lemma explained_deny (text : string) : explained (deny text).
Proof. intros _. discriminate. Qed.

Lemma explained_allowed (result : ValidationResult) :
  allowed result = true -> explained result.
Proof. intros H H'. congruence. Qed.

Create HintDb results.
#[local] Hint Resolve explained_deny : results.

Lemma for_each_explained (body : Json -> Exc (option ValidationResult))
  (done : ValidationResult) :
  (forall item result, body item = Ok (Some result) -> explained result) ->
  explained done ->
  forall items result,
    for_each body items done = Ok result -> explained result.
Proof.
  intros Hbody Hdone. induction items as [|item rest IH]; intros result; simpl.
  - now intros [= <-].
  - destruct (body item) as [[r|]|e] eqn:E; simpl; try discriminate.
    + intros [= <-]. eauto.
    + apply IH.
Qed.

(** Case analysis along the binds, tests and matches of a loop body. *)
Ltac walk :=
  repeat match goal with
    | |- context [bind ?m _] => destruct m; cbn [bind]
    | |- context [if ?b then _ else _] => destruct b
    | |- context [match ?x with _ => _ end] => destruct x
    end.

Ltac denies :=
  walk;
  match goal with
  | |- Ok (Some _) = Ok (Some _) -> _ => intros [= <-]; auto with results
  | |- _ => let H := fresh in intros H; discriminate H
  end.

Lemma ImagePolicy_container_explained (self : ImagePolicyValidator)
  (item : Json) (result : ValidationResult) :
  ImagePolicy_container self item = Ok (Some result) -> explained result.
Proof. unfold ImagePolicy_container. denies. Qed.

Lemma ResourceRequirements_container_explained
  (self : ResourceRequirementsValidator) (item : Json)
  (result : ValidationResult) :
  ResourceRequirements_container self item = Ok (Some result) ->
  explained result.
Proof. unfold ResourceRequirements_container. denies. Qed.

Lemma SecurityContext_container_explained (self : SecurityContextValidator)
  (item : Json) (result : ValidationResult) :
  SecurityContext_container self item = Ok (Some result) -> explained result.
Proof. unfold SecurityContext_container, when. denies. Qed.

(** The shape all three [_validate] share. *)
Lemma _validate_explained (body : Json -> Exc (option ValidationResult))
  (pre : Json -> Exc bool) (done : ValidationResult) (prefix : string)
  (request : Json) :
  (forall item result, body item = Ok (Some result) -> explained result) ->
  explained done ->
  explained
    (try_except
       (ps <- pod_spec_of request ;;
        match ps with
        | None => Ok (deny "Invalid pod specification")
        | Some (spec, containers) =>
            stop <- pre spec ;;
            if stop then Ok (deny "Host network access is not allowed") else
            items <- py_iter containers ;;
            for_each body items done
        end)
       (fun e => deny (prefix ++ str_exn e))).
Proof.
  intros Hbody Hdone.
  destruct (pod_spec_of request) as [[[spec containers]|]|e]; cbn [bind try_except];
    auto with results.
  destruct (pre spec) as [[|]|e]; cbn [bind try_except]; auto with results.
  destruct (py_iter containers) as [items|e]; cbn [bind try_except];
    auto with results.
  destruct (for_each body items done) as [result|e] eqn:E; cbn [try_except];
    auto with results.
  eapply for_each_explained; eauto.
Qed.

Lemma ImagePolicyValidator__validate_explained (self : ImagePolicyValidator)
  (request : Json) : explained (ImagePolicyValidator__validate self request).
Proof.
  apply (_validate_explained (ImagePolicy_container self) (fun _ => Ok false)).
  - apply ImagePolicy_container_explained.
  - now apply explained_allowed.
Qed.

Lemma ResourceRequirementsValidator__validate_explained
  (self : ResourceRequirementsValidator) (request : Json) :
  explained (ResourceRequirementsValidator__validate self request).
Proof.
  apply (_validate_explained (ResourceRequirements_container self)
           (fun _ => Ok false)).
  - apply ResourceRequirements_container_explained.
  - now apply explained_allowed.
Qed.

Lemma SecurityContextValidator__validate_explained
  (self : SecurityContextValidator) (request : Json) :
  explained (SecurityContextValidator__validate self request).
Proof.
  apply (_validate_explained (SecurityContext_container self)
           (fun spec => when (enforce_host_network self)
                          (h <- py_get spec "hostNetwork" (JBool false) ;;
                           Ok (truthy h)))).
  - apply SecurityContext_container_explained.
  - now apply explained_allowed.
Qed.

Lemma BaseValidator_validate_explained (sup : Json -> Exc bool)
  (val : Json -> Exc ValidationResult) (request : Json) :
  (forall r result, val r = Ok result -> explained result) ->
  explained (BaseValidator_validate sup val request).
Proof.
  intros Hval. unfold BaseValidator_validate.
  destruct (missing "request" request) as [[|]|e]; cbn [bind try_except];
    auto with results.
  destruct (py_get request "request" (JDict [])) as [r|e];
    cbn [bind try_except]; auto with results.
  destruct (missing "object" r) as [[|]|e]; cbn [bind try_except];
    auto with results.
  destruct (sup request) as [[|]|e]; cbn [bind try_except negb];
    auto with results.
  - destruct (val r) as [result|e] eqn:E; cbn [try_except];
      eauto with results.
  - now apply explained_allowed.
Qed.

Lemma SecurityContextValidator_validate_explained
  (self : SecurityContextValidator) (request : arg) :
  explained (SecurityContextValidator_validate self request).
Proof.
  unfold SecurityContextValidator_validate.
  destruct (attr_request request) as [rq|e]; cbn [bind try_except];
    auto with results.
  destruct (negb (SecurityContextValidator_supports (inr rq)));
    [now apply explained_allowed|].
  destruct (py_get (object rq) "spec" (JDict [])) as [pod_spec|e];
    cbn [bind try_except]; auto with results.
  destruct (attr_kind_kind rq) as [k|e]; cbn [bind try_except];
    auto with results.
  destruct (if k =? "Deployment"
            then t <- py_get pod_spec "template" (JDict []);;
                 py_get t "spec" (JDict [])
            else Ok pod_spec) as [ps|e]; cbn [bind try_except];
    auto with results.
  apply SecurityContextValidator__validate_explained.
Qed.

(** Every policy validator answers [supports] and [validate] without
    raising, and explains what it disallows. *)
Lemma policy_validator_total (v : PolicyValidator) (request : Json) :
  (exists ok, supports (as_validator v) request = Ok ok)
  /\ exists result,
       validate (as_validator v) request = Ok result /\ explained result.
Proof.
  destruct v as [self|self|self]; simpl; split; eauto.
  - eexists; split; [reflexivity|].
    apply BaseValidator_validate_explained. intros r result [= <-].
    apply ImagePolicyValidator__validate_explained.
  - eexists; split; [reflexivity|].
    apply BaseValidator_validate_explained. intros r result [= <-].
    apply ResourceRequirementsValidator__validate_explained.
  - eexists; split; [reflexivity|].
    apply SecurityContextValidator_validate_explained.
Qed.

Lemma policy_chain_loop (vs : list PolicyValidator) (request : Json) :
  forall acc, exists result,
    ValidatorChain_loop (map as_validator vs) request acc = Ok result
    /\ (message result = None <-> allowed result = true).
Proof.
  induction vs as [|v vs IH]; intros acc; simpl.
  - eexists; split; [reflexivity|]. simpl. tauto.
  - destruct (policy_validator_total v request)
      as [[ok Hs] [result [Hv He]]].
    rewrite Hs; cbn [bind]. destruct ok; cbn [negb]; [|apply IH].
    rewrite Hv; cbn [bind]. destruct (allowed result) eqn:Ha; cbn [negb].
    + apply IH.
    + exists result. split; [reflexivity|]. specialize (He Ha).
      split; intros H; congruence.
Qed.

(** C10, refuted as stated.  A rule's [validate] entry point returns an
    allowing result that carries a message: here the image policy on a pod
    that meets it. *)
Lemma allowed_result_with_message :
  ImagePolicyValidator_validate default_image_policy
    (JDict (pod_envelope "Pod" compliant_pod))
  = mkValidationResult true (Some "Image policy validation passed") None.
Proof. reflexivity. Qed.

(** C10, amended.  Every result of the validation chain over the policy
    validators carries a message if and only if it disallows, and the chain
    always returns one; every result of a policy validator's [validate] entry
    point carries a message when it disallows (an allowing one may carry an
    informational message too). *)
Theorem message_iff_disallowed (request : Json) :
  (forall vs, exists result,
      ValidatorChain_validate (map as_validator vs) request = Ok result
      /\ (message result = None <-> allowed result = true))
  /\ (forall v, exists result,
      validate (as_validator v) request = Ok result
      /\ (allowed result = false -> message result <> None)).
Proof.
  split.
  - intros vs. apply policy_chain_loop.
  - intros v. apply policy_validator_total.
Qed.

(** ** The rules on a typed pod spec *)

Lemma py_get_dict (d : list (string * Json)) (k : string) (default : Json) :
  py_get (JDict d) k default = Ok (get_or d k default).
Proof. reflexivity. Qed.

Lemma missing_present (k : string) (d : list (string * Json)) (v : Json) :
  lookup k d = Some v -> missing k (JDict d) = Ok false.
Proof. intros H. rewrite missing_dict. unfold has_key. now rewrite H. Qed.

(** The opening of [_validate] on a request that carries a pod with a
    spec. *)
Lemma pod_spec_of_typed (request pod spec : list (string * Json)) :
  lookup "object" request = Some (JDict pod) ->
  lookup "spec" pod = Some (JDict spec) ->
  pod_spec_of (JDict request)
  = Ok (Some (JDict spec, get_or spec "containers" (JList []))).
Proof.
  intros Ho Hs. unfold pod_spec_of.
  rewrite py_get_dict. unfold get_or at 1. rewrite Ho. cbn [bind].
  rewrite (missing_present "spec" pod _ Hs). cbn [bind].
  rewrite py_get_dict. unfold get_or at 1. rewrite Hs. cbn [bind].
  now rewrite py_get_dict.
Qed.

Lemma py_iter_typed (spec : list (string * Json)) (typed : Json -> bool) :
  typed_containers spec typed = true ->
  py_iter (get_or spec "containers" (JList [])) = Ok (containers_of spec)
  /\ Forall (fun c => typed c = true) (containers_of spec).
Proof.
  unfold typed_containers, get_or, containers_of.
  destruct (lookup "containers" spec) as [[| | | |cs|]|]; try discriminate.
  - intros H. split; [reflexivity|].
    apply Forall_forall. now apply forallb_forall.
  - intros _. split; [reflexivity | constructor].
Qed.

Lemma for_each_rule (body : Json -> Exc (option ValidationResult))
  (rule : Json -> option string) (done : ValidationResult) (items : list Json) :
  Forall (fun item => body item = Ok (option_map deny (rule item))) items ->
  for_each body items done
  = Ok (match first_violation rule items with
        | Some text => deny text
        | None => done
        end).
Proof.
  induction 1 as [|item rest Hitem _ IH]; simpl; [reflexivity|].
  rewrite Hitem. cbn [bind]. destruct (rule item); simpl; auto.
Qed.

Lemma truthy_bool_field (d : list (string * Json)) (k : string) :
  bool_field d k = true ->
  truthy (get_or d k (JBool false)) = is_true d k.
Proof.
  unfold bool_field, get_or, is_true.
  destruct (lookup k d) as [[|[|]| | | |]|]; try discriminate; reflexivity.
Qed.

Lemma root_int_field (d : list (string * Json)) :
  int_field d "runAsUser" = true ->
  is_root (get_or d "runAsUser" JNone) = runs_as_root d.
Proof.
  unfold int_field, get_or, runs_as_root, is_root.
  destruct (lookup "runAsUser" d) as [[| |[| |]| | |]|]; try discriminate;
    reflexivity.
Qed.

Lemma SecurityContext_container_fields (self : SecurityContextValidator)
  (sc : list (string * Json)) :
  bool_field sc "privileged" && int_field sc "runAsUser"
  && bool_field sc "readOnlyRootFilesystem" = true ->
  (privileged <- when (enforce_privileged self)
                   (p <- py_get (JDict sc) "privileged" (JBool false) ;;
                    Ok (truthy p)) ;;
   if privileged then Ok (Some (deny "Privileged containers are not allowed")) else
   root <- when (enforce_non_root self)
             (run_as_user <- py_get (JDict sc) "runAsUser" JNone ;;
              Ok (is_root run_as_user)) ;;
   if root then Ok (Some (deny "Running as root is not allowed")) else
   writable <- when (enforce_readonly_root self)
                 (r <- py_get (JDict sc) "readOnlyRootFilesystem" (JBool false) ;;
                  Ok (negb (truthy r))) ;;
   if writable then Ok (Some (deny "Root filesystem must be read-only")) else
   Ok None)
  = Ok (option_map deny
          (if enforce_privileged self && is_true sc "privileged"
           then Some "Privileged containers are not allowed"
           else if enforce_non_root self && runs_as_root sc
           then Some "Running as root is not allowed"
           else if enforce_readonly_root self
                   && negb (is_true sc "readOnlyRootFilesystem")
           then Some "Root filesystem must be read-only"
           else None)).
Proof.
  intros H. apply andb_prop in H as [H Hro]. apply andb_prop in H as [Hp Hu].
  rewrite !py_get_dict. cbn [bind].
  rewrite (truthy_bool_field sc "privileged" Hp),
    (truthy_bool_field sc "readOnlyRootFilesystem" Hro), (root_int_field sc Hu).
  unfold when.
  destruct (enforce_privileged self), (enforce_non_root self),
    (enforce_readonly_root self), (is_true sc "privileged"), (runs_as_root sc),
    (is_true sc "readOnlyRootFilesystem"); reflexivity.
Qed.

Lemma SecurityContext_container_typed (self : SecurityContextValidator)
  (container : Json) :
  typed_security_context container = true ->
  SecurityContext_container self container
  = Ok (option_map deny (SecurityContextRule_container self container)).
Proof.
  destruct container as [| | | | |c]; try discriminate.
  unfold typed_security_context, SecurityContext_container,
    SecurityContextRule_container, security_context_of.
  rewrite py_get_dict. unfold get_or. cbn [bind].
  destruct (lookup "securityContext" c) as [[| | | | |sc]|]; try discriminate.
  - apply SecurityContext_container_fields.
  - intros _. now apply (SecurityContext_container_fields self []).
Qed.

(** C8.  On every request that carries a pod whose spec has the field types
    Kubernetes gives it (hostNetwork, privileged and readOnlyRootFilesystem
    boolean, runAsUser an integer, each possibly unset), [_validate] returns
    the verdict of the SecurityContextRule of the specification: the host
    network check first, then the containers in declaration order with the
    privileged, root and read-only checks in that order, the first violation
    deciding.  A container with no securityContext passes the first two checks
    and fails the read-only one when that is enforced. *)
Theorem SecurityContextValidator__validate_rule (self : SecurityContextValidator)
  (request pod spec : list (string * Json)) :
  lookup "object" request = Some (JDict pod) ->
  lookup "spec" pod = Some (JDict spec) ->
  typed_security_spec spec = true ->
  SecurityContextValidator__validate self (JDict request)
  = verdict (SecurityContextRule self spec) "Security context validation passed"
  /\ (forall c,
      lookup "securityContext" c = None ->
      SecurityContext_container self (JDict c)
      = Ok (if enforce_readonly_root self
            then Some (deny "Root filesystem must be read-only")
            else None)).
Proof.
  intros Ho Hs Ht. split.
  - apply andb_prop in Ht as [Hh Hc].
    destruct (py_iter_typed spec _ Hc) as [Hiter Hall].
    assert (Hloop :
      for_each (SecurityContext_container self) (containers_of spec)
        (allow_with "Security context validation passed")
      = Ok (verdict (first_violation (SecurityContextRule_container self)
                       (containers_of spec))
              "Security context validation passed")).
    { rewrite (for_each_rule _ (SecurityContextRule_container self)).
      - reflexivity.
      - eapply Forall_impl; [|exact Hall]. intros c Hc'.
        now apply SecurityContext_container_typed. }
    unfold SecurityContextValidator__validate, SecurityContextRule.
    rewrite (pod_spec_of_typed request pod spec Ho Hs). cbn [bind].
    rewrite py_get_dict. cbn [bind].
    rewrite (truthy_bool_field spec "hostNetwork" Hh).
    unfold when.
    destruct (enforce_host_network self); cbn [andb bind].
    + destruct (is_true spec "hostNetwork"); cbn [bind try_except].
      * reflexivity.
      * rewrite Hiter. cbn [bind]. now rewrite Hloop.
    + rewrite Hiter. cbn [bind]. now rewrite Hloop.
  - intros c Hn.
    rewrite (SecurityContext_container_typed self (JDict c)).
    + unfold SecurityContextRule_container, security_context_of. rewrite Hn.
      unfold is_true, runs_as_root. simpl lookup.
      rewrite !andb_false_r. simpl.
      now destruct (enforce_readonly_root self).
    + unfold typed_security_context. now rewrite Hn.
Qed.

Lemma SecurityContextValidator__validate_rule_witness :
  SecurityContextValidator__validate strict_security
    (JDict [("object", multiple_containers_pod)])
  = deny "Privileged containers are not allowed"
  /\ SecurityContext_container strict_security
       (JDict [("name", JStr "test-container")])
     = Ok (Some (deny "Root filesystem must be read-only")).
Proof.
  pose proof (SecurityContextValidator__validate_rule strict_security
                [("object", multiple_containers_pod)]
                [("spec",
                  JDict [("containers",
                          JList [JDict [("name", JStr "container1");
                                        ("securityContext",
                                         JDict [("privileged", JBool false);
                                                ("runAsUser", JInt 1000);
                                                ("readOnlyRootFilesystem", JBool true)])];
                                 JDict [("name", JStr "container2");
                                        ("securityContext",
                                         JDict [("privileged", JBool true);
                                                ("runAsUser", JInt 0);
                                                ("readOnlyRootFilesystem", JBool false)])]])])]
                [("containers",
                  JList [JDict [("name", JStr "container1");
                                ("securityContext",
                                 JDict [("privileged", JBool false);
                                        ("runAsUser", JInt 1000);
                                        ("readOnlyRootFilesystem", JBool true)])];
                         JDict [("name", JStr "container2");
                                ("securityContext",
                                 JDict [("privileged", JBool true);
                                        ("runAsUser", JInt 0);
                                        ("readOnlyRootFilesystem", JBool false)])]])]
                eq_refl eq_refl eq_refl) as [Hrule Hbare].
  split.
  - exact Hrule.
  - exact (Hbare [("name", JStr "test-container")] eq_refl).
Defined.

(** ** The image policy *)

Lemma ImagePolicy_container_typed (self : ImagePolicyValidator)
  (container : Json) :
  typed_image container = true ->
  ImagePolicy_container self container
  = Ok (option_map deny
          (ImagePolicyRule_container latest_by_substring self container)).
Proof.
  destruct container as [| | | | |c]; try discriminate.
  intros Ht.
  assert (Himage : exists s,
             get_or c "image" (JStr "") = JStr s /\ image_of (JDict c) = s).
  { unfold typed_image in Ht. unfold get_or, image_of.
    destruct (lookup "image" c) as [[| | |s| |]|]; try discriminate; eauto. }
  destruct Himage as [s [Hget Himage]].
  unfold ImagePolicy_container, ImagePolicyRule_container,
    latest_by_substring, registry_of.
  rewrite Himage, !py_get_dict. cbn [bind name_of]. rewrite !Hget.
  cbn [truthy py_in py_not_in bind split_first].
  destruct (s =? ""); cbn [negb]; [reflexivity|].
  destruct (contains "/" s); cbn [bind];
    (destruct (existsb _ (allowed_registries self)); cbn [negb];
     [|reflexivity];
     destruct (deny_latest_tag self); cbn [andb bind]; [|reflexivity];
     destruct (contains ":latest" s); cbn [bind];
     [now rewrite orb_true_r|];
     rewrite orb_false_r; now destruct (contains ":" s)).
Qed.

Lemma first_violation_app (rule : Json -> option string)
  (pre post : list Json) (c : Json) (text : string) :
  Forall (fun p => rule p = None) pre ->
  rule c = Some text ->
  first_violation rule (pre ++ c :: post)%list = Some text.
Proof.
  induction 1 as [|p pre Hp _ IH]; intros Hc; simpl.
  - now rewrite Hc.
  - rewrite Hp. now apply IH.
Qed.

(** C9, refuted as stated.  On an image whose tag is [latest-alpine], so
    that check (c) in the words of the specification finds nothing, the code
    still fails with the latest-tag message: it looks for [:latest] anywhere
    in the image. *)
Lemma latest_is_a_substring_test :
  contains ":" "docker.io/nginx:latest-alpine" = true
  /\ tag_of "docker.io/nginx:latest-alpine" = "latest-alpine"
  /\ ImagePolicyRule latest_by_tag default_image_policy
       [("containers",
         JList [JDict [("name", JStr "web");
                       ("image", JStr "docker.io/nginx:latest-alpine")]])]
     = None
  /\ ImagePolicyValidator__validate default_image_policy
       (JDict [("object",
                pod_with_images [("web", "docker.io/nginx:latest-alpine")])])
     = deny "Latest tag is not allowed for image docker.io/nginx:latest-alpine".
Proof. repeat split. Qed.

(** C9, amended.  On every request that carries a pod whose containers have
    string images, [_validate] returns the verdict of the ImagePolicyRule with
    check (c) read as "no [:] in the image, or [:latest] somewhere in it":
    containers in declaration order and, per container, the empty image, the
    registry (the text before the first [/], or [docker.io] without one)
    against the allowed set, then the latest tag; the first violation decides,
    so of two violating containers only the first is reported. *)
Theorem ImagePolicyValidator__validate_rule (self : ImagePolicyValidator)
  (request pod spec : list (string * Json)) :
  lookup "object" request = Some (JDict pod) ->
  lookup "spec" pod = Some (JDict spec) ->
  typed_image_spec spec = true ->
  ImagePolicyValidator__validate self (JDict request)
  = verdict (ImagePolicyRule latest_by_substring self spec)
      "Image policy validation passed"
  /\ (forall pre c post text,
      containers_of spec = (pre ++ c :: post)%list ->
      Forall (fun p => ImagePolicyRule_container latest_by_substring self p = None)
        pre ->
      ImagePolicyRule_container latest_by_substring self c = Some text ->
      ImagePolicyValidator__validate self (JDict request) = deny text).
Proof.
  intros Ho Hs Ht.
  destruct (py_iter_typed spec _ Ht) as [Hiter Hall].
  assert (Hrule : ImagePolicyValidator__validate self (JDict request)
                  = verdict (ImagePolicyRule latest_by_substring self spec)
                      "Image policy validation passed").
  { unfold ImagePolicyValidator__validate, ImagePolicyRule.
    rewrite (pod_spec_of_typed request pod spec Ho Hs). cbn [bind].
    rewrite Hiter. cbn [bind].
    rewrite (for_each_rule _ (ImagePolicyRule_container latest_by_substring self)).
    - reflexivity.
    - eapply Forall_impl; [|exact Hall]. intros c Hc.
      now apply ImagePolicy_container_typed. }
  split; [exact Hrule|].
  intros pre c post text Hcs Hpre Hc. rewrite Hrule. unfold ImagePolicyRule.
  rewrite Hcs, (first_violation_app _ pre post c text Hpre Hc). reflexivity.
Qed.

Lemma ImagePolicyValidator__validate_rule_witness :
  ImagePolicyValidator__validate default_image_policy
    (JDict [("object",
             pod_with_images [("container1", "docker.io/nginx:1.19");
                              ("container2", "gcr.io/test/image:v1");
                              ("container3", "nginx")])])
  = deny "Registry gcr.io is not allowed. Allowed registries: docker.io".
Proof.
  apply (proj2 (ImagePolicyValidator__validate_rule default_image_policy
                  [("object",
                    pod_with_images [("container1", "docker.io/nginx:1.19");
                                     ("container2", "gcr.io/test/image:v1");
                                     ("container3", "nginx")])]
                  [("spec",
                    JDict [("containers",
                            JList [JDict [("name", JStr "container1");
                                          ("image", JStr "docker.io/nginx:1.19")];
                                   JDict [("name", JStr "container2");
                                          ("image", JStr "gcr.io/test/image:v1")];
                                   JDict [("name", JStr "container3");
                                          ("image", JStr "nginx")]])])]
                  [("containers",
                    JList [JDict [("name", JStr "container1");
                                  ("image", JStr "docker.io/nginx:1.19")];
                           JDict [("name", JStr "container2");
                                  ("image", JStr "gcr.io/test/image:v1")];
                           JDict [("name", JStr "container3");
                                  ("image", JStr "nginx")]])]
                  eq_refl eq_refl eq_refl)
           [JDict [("name", JStr "container1");
                   ("image", JStr "docker.io/nginx:1.19")]]
           (JDict [("name", JStr "container2");
                   ("image", JStr "gcr.io/test/image:v1")])
           [JDict [("name", JStr "container3"); ("image", JStr "nginx")]]
           "Registry gcr.io is not allowed. Allowed registries: docker.io"
           eq_refl).
  - repeat constructor.
  - reflexivity.
Defined.

(** ** The mutation chain *)

Lemma loop_runs (pre : list Mutator) (a : arg) (ps : list Json) (a' : arg)
  (ps' : list Json) :
  runs pre a ps a' ps' ->
  forall rest,
    MutatorChain_loop (pre ++ rest) a ps = MutatorChain_loop rest a' ps'.
Proof.
  induction 1 as [|m ms a ps a' ps' Hs _ IH
                  |m ms a result a1 ps a' ps' Hs Hm Hr _ IH];
    intros rest; simpl.
  - reflexivity.
  - rewrite Hs. apply IH.
  - rewrite Hs, Hm, Hr. simpl. apply IH.
Qed.

Lemma loop_returns_no_patch (ms : list Mutator) :
  forall a ps result a',
    MutatorChain_loop ms a ps = (Returned result, a') ->
    mutated result = true ->
    patched result = None /\ mmessage result = None.
Proof.
  induction ms as [|m ms IH]; intros a ps result a'; simpl.
  - destruct ps; simpl; [|discriminate]. intros [= <- _]. auto.
  - destruct (msupports m a) as [[|]|e]; try discriminate.
    + destruct (mutate m a) as [[r|e] a1]; try discriminate.
      destruct (mutated r) eqn:Hr; simpl.
      * apply IH.
      * intros [= <- _] H. congruence.
    + apply IH.
Qed.

(** *** The frame of [mutate] *)

(** A kind other than Pod and Deployment is declined inside [mutate]. *)
Lemma mutate_by_other_kind (edit : string -> Json -> Edit)
  (r : AdmissionReview) (k : GroupVersionKind) :
  request_kind (request r) = KindModel k ->
  (kind k =? "Pod") || (kind k =? "Deployment") = false ->
  mutate_by edit (ArgReview r) = (mkMutationResult false None None, ArgReview r).
Proof.
  intros Hk Hnot. unfold mutate_by, attr_kind_kind. cbn [attr_request bind].
  rewrite Hk. cbn [bind]. now rewrite Hnot.
Qed.

Lemma mutate_by_no_patch_on_failure (edit : string -> Json -> Edit) (a : arg) :
  mutated (fst (mutate_by edit a)) = false ->
  patched (fst (mutate_by edit a)) = None.
Proof.
  unfold mutate_by.
  destruct (rq <- attr_request a;; kind <- attr_kind_kind rq;; Ok (rq, kind))
    as [[rq k]|e]; [|reflexivity].
  destruct (negb ((k =? "Pod") || (k =? "Deployment"))); [reflexivity|].
  destruct (edit k (object rq)); [discriminate | reflexivity].
Qed.



(** *** Objects that already carry the defaults *)

Lemma setitem_same (d : list (string * Json)) (k : string) (v : Json) :
  lookup k d = Some v -> setitem d k v = d.
Proof.
  induction d as [|[k' v'] d IH]; simpl; [discriminate|].
  destruct (k =? k').
  - now intros [= ->].
  - intros H. now rewrite IH.
Qed.

Lemma add_defaults_carried (key : string) (defaults : list (string * string))
  (metadata : list (string * Json)) :
  carries metadata key defaults ->
  add_defaults key defaults (JDict metadata) = Ok (JDict metadata).
Proof.
  intros [->|[d [Hl Hu]]]; [reflexivity|].
  unfold add_defaults. destruct defaults as [|kv defaults]; [reflexivity|].
  rewrite py_get_dict. unfold get_or. rewrite Hl. cbn [bind py_update].
  rewrite Hu. cbn [py_setitem]. now rewrite (setitem_same _ _ _ Hl).
Qed.

Lemma edit_metadata_carried (self : DefaultLabelsAnnotationsMutator)
  (o metadata : list (string * Json)) :
  lookup "metadata" o = Some (JDict metadata) ->
  carries metadata "labels" (default_labels self) ->
  carries metadata "annotations" (default_annotations self) ->
  edit_metadata self (JDict o) = Done o.
Proof.
  intros Hm Hl Ha. unfold edit_metadata, get_or. rewrite Hm.
  rewrite (add_defaults_carried _ _ _ Hl), (add_defaults_carried _ _ _ Ha).
  now rewrite (setitem_same _ _ _ Hm).
Qed.







(** *** Skips and stops *)

(** C3, refuted as stated.  On a Service the labels mutator does not support
    the kind, yet it is not skipped: the chain stops with its mutated=false
    result and the mutator after it, which alone would report success, is
    never run. *)
Lemma unsupported_kind_ends_chain :
  MutatorChain_mutate [labels_annotations_mutator app_label; succeeding_mutator]
    (review "Service" labelled_pod)
  = (Returned (mkMutationResult false None None), review "Service" labelled_pod)
  /\ MutatorChain_mutate [succeeding_mutator] (review "Service" labelled_pod)
     = (Returned (mkMutationResult true None None), review "Service" labelled_pod).
Proof. split; reflexivity. Qed.

(** C3, amended.  The chain visits its mutators in registration order.  After
    any prefix of mutators that are skipped or succeed: a mutator whose
    [supports] is false is skipped, the chain going on with the request and
    the collected patches as they are; a mutator that returns mutated=false
    ends the chain at once with that very result, whatever follows it.  That
    result carries the message of an error, or no message when the mutator
    declined the kind inside [mutate], as each mutator of the repository does
    for a kind other than Pod and Deployment while its [supports] accepts it;
    in both cases the result of such a mutator carries no patch. *)
Theorem MutatorChain_skip_and_stop (pre : list Mutator) (a a' : arg)
  (ps' : list Json) :
  runs pre a [] a' ps' ->
  (forall m post,
      msupports m a' = Ok false ->
      MutatorChain_mutate (pre ++ m :: post) a = MutatorChain_loop post a' ps')
  /\ (forall m result a'' post,
      msupports m a' = Ok true ->
      mutate m a' = (Ok result, a'') ->
      mutated result = false ->
      MutatorChain_mutate (pre ++ m :: post) a = (Returned result, a''))
  /\ (forall m r k post,
      a' = ArgReview r ->
      request_kind (request r) = KindModel k ->
      (kind k =? "Pod") || (kind k =? "Deployment") = false ->
      MutatorChain_mutate (pre ++ default_mutator m :: post) a
      = (Returned (mkMutationResult false None None), a'))
  /\ (forall m b,
      mutated (fst (default_mutate m b)) = false ->
      patched (fst (default_mutate m b)) = None).
Proof.
  intros Hruns. unfold MutatorChain_mutate.
  split; [|split; [|split]].
  - intros m post Hs. rewrite (loop_runs _ _ _ _ _ Hruns). simpl.
    now rewrite Hs.
  - intros m result a'' post Hs Hm Hr. rewrite (loop_runs _ _ _ _ _ Hruns).
    simpl. now rewrite Hs, Hm, Hr.
  - intros m r k post -> Hk Hnot. rewrite (loop_runs _ _ _ _ _ Hruns).
    cbn [MutatorChain_loop default_mutator as_mutator msupports mutate].
    unfold default_mutate.
    now rewrite (mutate_by_other_kind (default_edit m) r k Hk Hnot).
  - intros m b. apply mutate_by_no_patch_on_failure.
Qed.

Lemma MutatorChain_skip_and_stop_witness :
  MutatorChain_mutate
    ([unsupporting_mutator; succeeding_mutator]
     ++ default_mutator (SecurityContexts default_security) :: [raising_mutator])
    (review "Service" labelled_pod)
  = (Returned (mkMutationResult false None None), review "Service" labelled_pod).
Proof.
  assert (H : runs [unsupporting_mutator; succeeding_mutator]
                (review "Service" labelled_pod) []
                (review "Service" labelled_pod) []).
  { apply runs_skip; [reflexivity|].
    apply (runs_step succeeding_mutator [] _
             (mkMutationResult true None None) (review "Service" labelled_pod));
      try reflexivity.
    apply runs_nil. }
  apply (proj1 (proj2 (proj2 (MutatorChain_skip_and_stop _ _ _ _ H)))
           (SecurityContexts default_security) _
           (mkGroupVersionKind "" "v1" "Service") [raising_mutator]
           eq_refl eq_refl eq_refl).
Defined.

(** *** Success without change *)





(** *** Edits in place *)




(** *** The payload of the chain *)

(** C7, the code at the failing input.  For a pod with empty metadata the
    chain collects the whole object the labels mutator returned, which is no
    patch operation, and hands that list to [MutationResult], whose [patched]
    field is a dict: the chain ends in a ValidationError.  No call of the
    chain ever returns a mutated=true result with a payload; and on a plain
    value, which is what the app passes, a chain of the repository's mutators
    stops at the first of them with mutated=false. *)
Theorem MutatorChain_collects_whole_objects :
  MutatorChain_mutate [labels_annotations_mutator app_label]
    (review "Pod" (JDict [("metadata", JDict [])]))
  = (Rejected
       (JList [JDict [("metadata",
                       JDict [("labels", JDict [("app", JStr "webhook")]);
                              ("annotations",
                               JDict [("owner", JStr "test-user")])])]]),
     review "Pod"
       (JDict [("metadata",
                JDict [("labels", JDict [("app", JStr "webhook")]);
                       ("annotations", JDict [("owner", JStr "test-user")])])]))
  /\ patch_operation
       (JDict [("metadata",
                JDict [("labels", JDict [("app", JStr "webhook")]);
                       ("annotations", JDict [("owner", JStr "test-user")])])])
     = false
  /\ (forall ms a result a',
      MutatorChain_mutate ms a = (Returned result, a') ->
      mutated result = true -> patched result = None)
  /\ (forall m defaults j,
      MutatorChain_mutate (map default_mutator (m :: defaults)) (ArgValue j)
      = (Returned
           (mkMutationResult false None
              (Some ("'" ++ type_name j ++ "' object has no attribute 'request'"))),
         ArgValue j)).
Proof.
  split; [reflexivity|]. split; [reflexivity|]. split.
  - intros ms a result a' H Hm.
    now destruct (loop_returns_no_patch ms a [] result a' H Hm).
  - reflexivity.
Qed.

(** * Further properties of the code *)

(** ** Which requests the validators look at *)

Lemma in_pod_or_deployment_true (v : Json) :
  in_pod_or_deployment v = true <-> v = JStr "Pod" \/ v = JStr "Deployment".
Proof.
  unfold in_pod_or_deployment, str_eq. split.
  - destruct v as [| | |s| |]; try discriminate.
    intros H. apply orb_prop in H as [H|H]; apply String.eqb_eq in H;
      subst; auto.
  - intros [->| ->]; reflexivity.
Qed.

Lemma kind_supports_kind_of (envelope : list (string * Json)) :
  kind_supports (JDict envelope) = true ->
  kind_of envelope = Some "Pod" \/ kind_of envelope = Some "Deployment".
Proof.
  unfold kind_supports, kind_of. rewrite py_get_dict. unfold get_or.
  cbn [bind].
  destruct (lookup "request" envelope) as [[| | | | |r]|]; try discriminate.
  rewrite py_get_dict. unfold get_or. cbn [bind].
  destruct (lookup "kind" r) as [[| | | | |k]|]; try discriminate.
  rewrite py_get_dict. unfold get_or. cbn [bind try_except].
  destruct (lookup "kind" k) as [v|]; [|discriminate].
  intros H. apply in_pod_or_deployment_true in H as [->| ->]; auto.
Qed.

(** [supports] of the policy validators accepts exactly the dicts that name
    the kind Pod or Deployment at [request.kind.kind]: a missing key on the
    way, a value that is no dict, or another kind all give [False], without an
    exception. *)
Theorem kind_supports_iff (request : Json) :
  kind_supports request = true
  <-> exists envelope,
        request = JDict envelope
        /\ (kind_of envelope = Some "Pod"
            \/ kind_of envelope = Some "Deployment").
Proof.
  split.
  - destruct request as [| | | | |envelope]; try discriminate.
    intros H. exists envelope. split; [reflexivity|].
    now apply kind_supports_kind_of.
  - intros [envelope [-> H]]. now apply kind_of_supports.
Qed.

Lemma policy_chain_skips (vs : list PolicyValidator) (request : Json)
  (acc : list string) :
  kind_supports request = false ->
  ValidatorChain_loop (map as_validator vs) request acc
  = Ok (mkValidationResult true None (warnings_field acc)).
Proof.
  intros Hk. induction vs as [|v vs IH]; simpl.
  - now destruct acc.
  - assert (Hs : supports (as_validator v) request = Ok false)
      by (destruct v; simpl; now rewrite Hk).
    rewrite Hs. cbn [bind negb]. exact IH.
Qed.

(** A chain of policy validators allows, with no message and no warnings,
    every request that does not name the kind Pod or Deployment, whatever its
    object holds and however many validators are configured: each of them is
    skipped. *)
Theorem policy_chain_allows_other_kinds (vs : list PolicyValidator)
  (request : Json) :
  (forall envelope,
      request = JDict envelope ->
      kind_of envelope <> Some "Pod" /\ kind_of envelope <> Some "Deployment") ->
  ValidatorChain_validate (map as_validator vs) request
  = Ok (mkValidationResult true None None).
Proof.
  intros H. apply policy_chain_skips.
  destruct (kind_supports request) eqn:Hk; [|reflexivity].
  destruct request as [| | | | |envelope]; try discriminate.
  destruct (H envelope eq_refl) as [Hp Hd].
  destruct (kind_supports_kind_of envelope Hk); contradiction.
Qed.

Lemma policy_chain_allows_other_kinds_witness :
  ValidatorChain_validate
    (map as_validator
       [SecurityContext strict_security; ImagePolicy default_image_policy;
        ResourceRequirements (mkResourceRequirementsValidator true)])
    (JDict (pod_envelope "StatefulSet" multiple_containers_pod))
  = Ok (mkValidationResult true None None).
Proof.
  apply policy_chain_allows_other_kinds.
  intros envelope [= <-]. split; discriminate.
Defined.

(** ** Requests without a pod spec *)

Lemma pod_spec_of_none (request : list (string * Json)) :
  no_pod_spec request = true -> pod_spec_of (JDict request) = Ok None.
Proof.
  unfold no_pod_spec, pod_spec_of. rewrite py_get_dict. unfold get_or.
  cbn [bind].
  destruct (lookup "object" request) as [pod|]; [|reflexivity].
  destruct (truthy pod) eqn:Ht; cbn [negb orb].
  - destruct pod as [| | | | |p]; try discriminate.
    intros H. rewrite missing_dict, H. reflexivity.
  - intros _. now rewrite (missing_falsy "spec" pod Ht).
Qed.

(** Each [_validate] answers a request that has no ["object"], an empty one,
    or one without a ["spec"] with allowed=false and "Invalid pod
    specification", whatever the configuration. *)
Theorem _validate_without_pod_spec (request : list (string * Json)) :
  no_pod_spec request = true ->
  (forall self, ImagePolicyValidator__validate self (JDict request)
                = deny "Invalid pod specification")
  /\ (forall self, ResourceRequirementsValidator__validate self (JDict request)
                   = deny "Invalid pod specification")
  /\ (forall self, SecurityContextValidator__validate self (JDict request)
                   = deny "Invalid pod specification").
Proof.
  intros H. pose proof (pod_spec_of_none request H) as Hp.
  repeat split; intros self;
    unfold ImagePolicyValidator__validate,
      ResourceRequirementsValidator__validate,
      SecurityContextValidator__validate;
    now rewrite Hp.
Qed.

Lemma _validate_without_pod_spec_witness :
  ImagePolicyValidator__validate default_image_policy
    (JDict [("object", JDict [("metadata", JDict [("name", JStr "test-pod")])])])
  = deny "Invalid pod specification"
  /\ SecurityContextValidator__validate strict_security (JDict [])
     = deny "Invalid pod specification".
Proof.
  split.
  - apply (proj1 (_validate_without_pod_spec
                    [("object",
                      JDict [("metadata", JDict [("name", JStr "test-pod")])])]
                    eq_refl)).
  - apply (proj2 (proj2 (_validate_without_pod_spec [] eq_refl))).
Defined.

(** ** The entry point and the rule behind it *)

(** On an envelope whose [request] is a dict with an ["object"], the base
    [validate] does nothing of its own: it hands [request] (not the envelope)
    to [_validate] and returns its result when [supports] accepts the
    envelope, and otherwise returns allowed=true with the message "Validator
    does not support this request type". *)
Theorem BaseValidator_validate_delegates (sup : Json -> bool)
  (val : Json -> ValidationResult) (envelope request : list (string * Json)) :
  lookup "request" envelope = Some (JDict request) ->
  has_key "object" request = true ->
  BaseValidator_validate (fun r => Ok (sup r)) (fun r => Ok (val r))
    (JDict envelope)
  = if sup (JDict envelope) then val (JDict request)
    else allow_with "Validator does not support this request type".
Proof.
  intros Hr Ho. unfold BaseValidator_validate.
  rewrite (missing_present "request" envelope _ Hr). cbn [bind].
  rewrite py_get_dict. unfold get_or. rewrite Hr. cbn [bind].
  rewrite missing_dict, Ho. cbn [negb bind].
  now destruct (sup (JDict envelope)).
Qed.

Lemma BaseValidator_validate_delegates_witness :
  ImagePolicyValidator_validate default_image_policy
    (JDict (pod_envelope "Pod" compliant_pod))
  = ImagePolicyValidator__validate default_image_policy
      (JDict [("uid", JStr "test-uid");
              ("kind", JDict [("group", JStr ""); ("version", JStr "v1");
                              ("kind", JStr "Pod")]);
              ("operation", JStr "CREATE");
              ("object", compliant_pod)]).
Proof.
  apply (BaseValidator_validate_delegates kind_supports
           (ImagePolicyValidator__validate default_image_policy)
           (pod_envelope "Pod" compliant_pod)
           [("uid", JStr "test-uid");
            ("kind", JDict [("group", JStr ""); ("version", JStr "v1");
                            ("kind", JStr "Pod")]);
            ("operation", JStr "CREATE");
            ("object", compliant_pod)]
           eq_refl eq_refl).
Defined.

(** The overriding [validate] of the security validator never reaches its
    checks: handed a review model it allows (its [supports] fails on the
    model and answers [False]), handed a plain value it disallows with the
    text of the AttributeError; neither answer depends on the configuration
    or on the pod. *)
Theorem SecurityContextValidator_validate_blind
  (self : SecurityContextValidator) (a : arg) :
  SecurityContextValidator_validate self a
  = match a with
    | ArgReview _ => allow
    | ArgValue j =>
        deny ("'" ++ type_name j ++ "' object has no attribute 'request'")
    end.
Proof. destruct a; reflexivity. Qed.

(** ** Containers that are no sequence *)

Lemma py_iter_not_iterable (v : Json) :
  not_iterable v = true ->
  py_iter v = Raise (TypeError ("'" ++ type_name v ++ "' object is not iterable")).
Proof. destruct v; try discriminate; reflexivity. Qed.

Lemma pod_spec_of_containers (request pod spec : list (string * Json))
  (containers : Json) :
  lookup "object" request = Some (JDict pod) ->
  lookup "spec" pod = Some (JDict spec) ->
  lookup "containers" spec = Some containers ->
  pod_spec_of (JDict request) = Ok (Some (JDict spec, containers)).
Proof.
  intros Ho Hs Hc. rewrite (pod_spec_of_typed request pod spec Ho Hs).
  unfold get_or. now rewrite Hc.
Qed.

(** When ["containers"] holds [null], a boolean or a number, the image and
    resource validators fail closed: the TypeError of the [for] loop is caught
    and the result is allowed=false with the validator's prefix and the text
    of the error.  The security validator does the same unless the host
    network check has already refused the pod. *)
Theorem _validate_containers_not_iterable
  (request pod spec : list (string * Json)) (containers : Json) :
  lookup "object" request = Some (JDict pod) ->
  lookup "spec" pod = Some (JDict spec) ->
  lookup "containers" spec = Some containers ->
  not_iterable containers = true ->
  let text := "'" ++ type_name containers ++ "' object is not iterable" in
  (forall self, ImagePolicyValidator__validate self (JDict request)
                = deny ("Image policy validation error: " ++ text))
  /\ (forall self, ResourceRequirementsValidator__validate self (JDict request)
                   = deny ("Resource requirements validation error: " ++ text))
  /\ (forall self,
         SecurityContextValidator__validate self (JDict request)
         = if enforce_host_network self
              && truthy (get_or spec "hostNetwork" (JBool false))
           then deny "Host network access is not allowed"
           else deny ("Security context validation error: " ++ text)).
Proof.
  intros Ho Hs Hc Hn text.
  pose proof (pod_spec_of_containers request pod spec containers Ho Hs Hc) as Hp.
  pose proof (py_iter_not_iterable containers Hn) as Hi.
  repeat split; intros self;
    unfold ImagePolicyValidator__validate,
      ResourceRequirementsValidator__validate,
      SecurityContextValidator__validate;
    rewrite Hp; cbn [bind]; try (now rewrite Hi).
  rewrite py_get_dict. unfold when.
  destruct (enforce_host_network self); cbn [bind andb].
  - destruct (truthy (get_or spec "hostNetwork" (JBool false)));
      cbn [bind try_except]; [reflexivity | now rewrite Hi].
  - now rewrite Hi.
Qed.

Lemma _validate_containers_not_iterable_witness :
  ImagePolicyValidator__validate default_image_policy
    (JDict [("object", JDict [("spec", JDict [("containers", JNone)])])])
  = deny "Image policy validation error: 'NoneType' object is not iterable".
Proof.
  apply (proj1 (_validate_containers_not_iterable
                  [("object", JDict [("spec", JDict [("containers", JNone)])])]
                  [("spec", JDict [("containers", JNone)])]
                  [("containers", JNone)] JNone
                  eq_refl eq_refl eq_refl eq_refl)).
Defined.

(** ** The resource requirements *)

Lemma py_get_dict_at (d : list (string * Json)) (k : string) :
  dict_field d k = true -> get_or d k (JDict []) = JDict (dict_at d k).
Proof.
  unfold dict_field, get_or, dict_at.
  destruct (lookup k d) as [[| | | | |x]|]; try discriminate; reflexivity.
Qed.

Lemma ResourceRequirements_container_typed
  (self : ResourceRequirementsValidator) (container : Json) :
  typed_resources container = true ->
  ResourceRequirements_container self container
  = Ok (option_map deny (ResourceRequirementsRule_container self container)).
Proof.
  destruct container as [| | | | |c]; try discriminate.
  intros Ht. apply andb_prop in Ht as [Ht Hq]. apply andb_prop in Ht as [Hr Hl].
  unfold ResourceRequirements_container, ResourceRequirementsRule_container.
  rewrite !py_get_dict, (py_get_dict_at c "resources" Hr). cbn [bind name_of].
  rewrite !py_get_dict, (py_get_dict_at _ "limits" Hl),
    (py_get_dict_at _ "requests" Hq).
  unfold py_not_in. cbn [bind py_in].
  destruct (enforce_limits self); cbn [negb andb].
  - destruct (dict_at c "resources") as [|kv resources] eqn:E;
      cbn [truthy negb]; [reflexivity|].
    destruct (has_key "cpu" (dict_at (kv :: resources) "limits"));
      cbn [negb]; [|reflexivity].
    destruct (has_key "memory" (dict_at (kv :: resources) "limits"));
      cbn [negb]; [|reflexivity].
    destruct (has_key "cpu" (dict_at (kv :: resources) "requests"));
      cbn [negb]; [|reflexivity].
    destruct (has_key "memory" (dict_at (kv :: resources) "requests"));
      reflexivity.
  - destruct (dict_at c "resources"); cbn [truthy negb andb]; reflexivity.
Qed.

Lemma first_violation_none (rule : Json -> option string)
  (containers : list Json) :
  (forall c, rule c = None) -> first_violation rule containers = None.
Proof.
  intros H. induction containers as [|c cs IH]; [reflexivity|].
  cbn [first_violation]. now rewrite H.
Qed.

Lemma ResourceRequirementsRule_container_off
  (self : ResourceRequirementsValidator) (container : Json) :
  enforce_limits self = false ->
  ResourceRequirementsRule_container self container = None.
Proof.
  intros Hoff. unfold ResourceRequirementsRule_container. rewrite Hoff.
  now destruct container.
Qed.

(** On every request that carries a pod whose containers are dicts with
    [resources], [limits] and [requests] absent or dicts, [_validate] of the
    resource validator reports the first container, in declaration order, that
    lacks something, and for it the first of: any resources at all (an empty
    dict counts as none), a cpu limit, a memory limit, a cpu request, a memory
    request; only the presence of the keys is looked at.  With
    [enforce_limits] unset every such pod passes. *)
Theorem ResourceRequirementsValidator__validate_rule
  (self : ResourceRequirementsValidator)
  (request pod spec : list (string * Json)) :
  lookup "object" request = Some (JDict pod) ->
  lookup "spec" pod = Some (JDict spec) ->
  typed_containers spec typed_resources = true ->
  ResourceRequirementsValidator__validate self (JDict request)
  = verdict
      (first_violation (ResourceRequirementsRule_container self)
         (containers_of spec))
      "Resource requirements validation passed"
  /\ (enforce_limits self = false ->
      ResourceRequirementsValidator__validate self (JDict request)
      = allow_with "Resource requirements validation passed").
Proof.
  intros Ho Hs Ht.
  destruct (py_iter_typed spec _ Ht) as [Hiter Hall].
  assert (Hrule : ResourceRequirementsValidator__validate self (JDict request)
                  = verdict
                      (first_violation (ResourceRequirementsRule_container self)
                         (containers_of spec))
                      "Resource requirements validation passed").
  { unfold ResourceRequirementsValidator__validate.
    rewrite (pod_spec_of_typed request pod spec Ho Hs). cbn [bind].
    rewrite Hiter. cbn [bind].
    rewrite (for_each_rule _ (ResourceRequirementsRule_container self)).
    - reflexivity.
    - eapply Forall_impl; [|exact Hall]. intros c Hc.
      now apply ResourceRequirements_container_typed. }
  split; [exact Hrule|].
  intros Hoff. rewrite Hrule.
  assert (Hnone : first_violation (ResourceRequirementsRule_container self)
                    (containers_of spec) = None).
  { apply first_violation_none. intros c.
    now apply ResourceRequirementsRule_container_off. }
  now rewrite Hnone.
Qed.

Lemma ResourceRequirementsValidator__validate_rule_witness :
  ResourceRequirementsValidator__validate (mkResourceRequirementsValidator true)
    (JDict [("object", JDict [("spec", JDict partial_resources_spec)])])
  = deny "Container partial must specify memory limits".
Proof.
  apply (proj1 (ResourceRequirementsValidator__validate_rule
                  (mkResourceRequirementsValidator true)
                  [("object", JDict [("spec", JDict partial_resources_spec)])]
                  [("spec", JDict partial_resources_spec)]
                  partial_resources_spec
                  eq_refl eq_refl eq_refl)).
Defined.

(** ** Dictionaries under assignment *)

Lemma lookup_setitem (d : list (string * Json)) (k k' : string) (v : Json) :
  lookup k (setitem d k' v) = if k =? k' then Some v else lookup k d.
Proof.
  induction d as [|[k'' v''] d IH]; simpl.
  - reflexivity.
  - destruct (String.eqb_spec k' k'') as [->|Hne]; simpl.
    + now destruct (k =? k'').
    + rewrite IH. destruct (String.eqb_spec k k'') as [->|Hne'].
      * destruct (String.eqb_spec k'' k') as [Heq|_]; [|reflexivity].
        now subst.
      * reflexivity.
Qed.

Lemma lookup_setitem_same (d : list (string * Json)) (k : string) (v : Json) :
  lookup k (setitem d k v) = Some v.
Proof. now rewrite lookup_setitem, String.eqb_refl. Qed.

Lemma lookup_setitem_other (d : list (string * Json)) (k k' : string)
  (v : Json) :
  k <> k' -> lookup k (setitem d k' v) = lookup k d.
Proof.
  intros H. rewrite lookup_setitem. now destruct (String.eqb_spec k k').
Qed.

Lemma setitem_nonempty (d : list (string * Json)) (k : string) (v : Json) :
  setitem d k v <> [].
Proof.
  destruct d as [|[k' v'] d]; simpl; [discriminate|].
  destruct (k =? k'); discriminate.
Qed.

Lemma update_cons (d : list (string * Json)) (k : string) (v : string)
  (rest : list (string * string)) :
  update d ((k, v) :: rest) = update (setitem d k (JStr v)) rest.
Proof. reflexivity. Qed.

Lemma lookup_update (defaults : list (string * string)) :
  forall (d : list (string * Json)) (k : string),
    lookup k (update d defaults)
    = match merged k defaults with
      | Some v => Some (JStr v)
      | None => lookup k d
      end.
Proof.
  induction defaults as [|[k' v'] rest IH]; intros d k.
  - reflexivity.
  - rewrite update_cons, IH. cbn [merged].
    destruct (merged k rest); [reflexivity|].
    rewrite lookup_setitem. now destruct (k =? k').
Qed.

Lemma update_fixed (defaults : list (string * string)) :
  forall d : list (string * Json),
    (forall k v, In (k, v) defaults -> lookup k d = Some (JStr v)) ->
    update d defaults = d.
Proof.
  induction defaults as [|[k v] rest IH]; intros d H.
  - reflexivity.
  - rewrite update_cons, (setitem_same d k (JStr v)).
    + apply IH. intros k' v' Hin. apply H. now right.
    + apply H. now left.
Qed.

Lemma merged_in (defaults : list (string * string)) (k v : string) :
  NoDup (map fst defaults) -> In (k, v) defaults -> merged k defaults = Some v.
Proof.
  induction defaults as [|[k' v'] rest IH]; intros Hnd Hin; [destruct Hin|].
  cbn [map fst] in Hnd. apply NoDup_cons_iff in Hnd as [Hnot Hnd].
  cbn [merged]. destruct Hin as [[= -> ->]|Hin].
  - destruct (merged k rest) as [w|] eqn:E.
    + exfalso. apply Hnot. clear - E.
      induction rest as [|[k'' v''] rest IH]; [discriminate|].
      cbn [merged] in E. cbn [map fst]. destruct (merged k rest).
      * right. now apply IH.
      * destruct (String.eqb_spec k k'') as [->|_]; [now left | discriminate].
    + now rewrite String.eqb_refl.
  - now rewrite (IH Hnd Hin).
Qed.

(** Merging the same defaults a second time changes nothing. *)
Lemma update_idempotent (defaults : list (string * string))
  (d : list (string * Json)) :
  NoDup (map fst defaults) ->
  update (update d defaults) defaults = update d defaults.
Proof.
  intros Hnd. apply update_fixed. intros k v Hin.
  now rewrite lookup_update, (merged_in defaults k v Hnd Hin).
Qed.

(** ** The labels and annotations mutator *)

Lemma dict_at_setitem_same (d x : list (string * Json)) (k : string) :
  dict_at (setitem d k (JDict x)) k = x.
Proof. unfold dict_at. now rewrite lookup_setitem_same. Qed.

Lemma lookup_merge_into_other (m : list (string * Json)) (key k : string)
  (defaults : list (string * string)) :
  k <> key -> lookup k (merge_into m key defaults) = lookup k m.
Proof.
  intros H. unfold merge_into. destruct defaults; [reflexivity|].
  now apply lookup_setitem_other.
Qed.

Lemma dict_at_merge_into_other (m : list (string * Json)) (key k : string)
  (defaults : list (string * string)) :
  k <> key -> dict_at (merge_into m key defaults) k = dict_at m k.
Proof.
  intros H. unfold dict_at. now rewrite lookup_merge_into_other.
Qed.

Lemma lookup_dict_at_merge_into (m : list (string * Json)) (key k : string)
  (defaults : list (string * string)) :
  lookup k (dict_at (merge_into m key defaults) key)
  = match merged k defaults with
    | Some v => Some (JStr v)
    | None => lookup k (dict_at m key)
    end.
Proof.
  unfold merge_into. destruct defaults as [|kv rest]; [reflexivity|].
  now rewrite dict_at_setitem_same, lookup_update.
Qed.

Lemma add_defaults_merge (key : string) (defaults : list (string * string))
  (m : list (string * Json)) :
  mergeable defaults key m = true ->
  add_defaults key defaults (JDict m) = Ok (JDict (merge_into m key defaults)).
Proof.
  unfold mergeable, add_defaults, merge_into.
  destruct defaults as [|kv rest]; [reflexivity|]. intros H.
  now rewrite py_get_dict, (py_get_dict_at m key H).
Qed.

Lemma add_defaults_fail (key : string) (defaults : list (string * string))
  (m : list (string * Json)) :
  mergeable defaults key m = false ->
  exists e, add_defaults key defaults (JDict m) = Raise e.
Proof.
  unfold mergeable, add_defaults, dict_field.
  destruct defaults as [|kv rest]; [discriminate|].
  rewrite py_get_dict. unfold get_or.
  destruct (lookup key m) as [[| | | | |x]|]; try discriminate;
    intros _; eexists; reflexivity.
Qed.

Lemma mergeable_merge_into (defaults defaults' : list (string * string))
  (key key' : string) (m : list (string * Json)) :
  key <> key' ->
  mergeable defaults key (merge_into m key' defaults')
  = mergeable defaults key m.
Proof.
  intros H. unfold mergeable, dict_field. destruct defaults; [reflexivity|].
  now rewrite lookup_merge_into_other.
Qed.

Lemma labels_not_annotations : "annotations" <> "labels".
Proof. discriminate. Qed.

Lemma edit_metadata_applicable (self : DefaultLabelsAnnotationsMutator)
  (h : list (string * Json)) :
  labels_applicable self (JDict h) = true ->
  edit_metadata self (JDict h)
  = Done (setitem h "metadata" (JDict (merged_metadata self h))).
Proof.
  intros H. apply andb_prop in H as [H Ha]. apply andb_prop in H as [Hm Hl].
  unfold edit_metadata, merged_metadata.
  rewrite (py_get_dict_at h "metadata" Hm), (add_defaults_merge _ _ _ Hl).
  rewrite add_defaults_merge; [reflexivity|].
  now rewrite mergeable_merge_into by apply labels_not_annotations.
Qed.

Lemma edit_metadata_fails (self : DefaultLabelsAnnotationsMutator)
  (holder : Json) :
  labels_succeed self holder = false ->
  exists e o, edit_metadata self holder = Failed e o.
Proof.
  destruct holder as [| | | | |h]; try (intros _; do 2 eexists; reflexivity).
  unfold labels_succeed, labels_applicable, edit_metadata.
  destruct (dict_field h "metadata") eqn:Hm; cbn [andb].
  - rewrite (py_get_dict_at h "metadata" Hm).
    destruct (mergeable (default_labels self) "labels" (dict_at h "metadata"))
      eqn:Hl; cbn [andb].
    + rewrite (add_defaults_merge _ _ _ Hl). intros Ha.
      assert (Ha' : mergeable (default_annotations self) "annotations"
                      (dict_at h "metadata") = false)
        by (destruct (default_labels self), (default_annotations self);
            (discriminate || exact Ha)).
      rewrite <- (mergeable_merge_into _ (default_labels self) _ "labels")
        in Ha' by apply labels_not_annotations.
      destruct (add_defaults_fail _ _ _ Ha') as [e ->]. eauto.
    + intros _. destruct (add_defaults_fail _ _ _ Hl) as [e ->]. eauto.
  - unfold dict_field, get_or in *. unfold add_defaults.
    destruct (lookup "metadata" h) as [[| | | | |x]|]; try discriminate;
      destruct (default_labels self); cbn [py_get bind];
      try (intros _; do 2 eexists; reflexivity);
      destruct (default_annotations self); cbn [py_get bind];
      try discriminate; intros _; do 2 eexists; reflexivity.
Qed.

Lemma edit_metadata_succeeds (self : DefaultLabelsAnnotationsMutator)
  (holder : Json) :
  labels_succeed self holder = true ->
  exists h1, edit_metadata self holder = Done h1.
Proof.
  destruct holder as [| | | | |h]; try discriminate.
  unfold labels_succeed.
  destruct (default_labels self) eqn:El; [destruct (default_annotations self) eqn:Ea|].
  - intros _. unfold edit_metadata, add_defaults. rewrite El, Ea. eauto.
  - intros H. rewrite (edit_metadata_applicable self h H). eauto.
  - intros H.
    assert (H' : labels_applicable self (JDict h) = true)
      by (now destruct (default_annotations self)).
    rewrite (edit_metadata_applicable self h H'). eauto.
Qed.

Lemma mutate_by_review_pod (edit : string -> Json -> Edit) (obj : Json) :
  mutate_by edit (review "Pod" obj)
  = match edit "Pod" obj with
    | Done o1 =>
        (mkMutationResult true (Some (JDict o1)) None, review "Pod" (JDict o1))
    | Failed e o1 =>
        (mkMutationResult false None (Some (str_exn e)), review "Pod" o1)
    end.
Proof. reflexivity. Qed.

Lemma mutate_by_review_deployment (edit : string -> Json -> Edit) (obj : Json) :
  mutate_by edit (review "Deployment" obj)
  = match edit "Deployment" obj with
    | Done o1 =>
        (mkMutationResult true (Some (JDict o1)) None,
         review "Deployment" (JDict o1))
    | Failed e o1 =>
        (mkMutationResult false None (Some (str_exn e)), review "Deployment" o1)
    end.
Proof. reflexivity. Qed.

Lemma labels_edit_pod (self : DefaultLabelsAnnotationsMutator) (obj : Json) :
  DefaultLabelsAnnotationsMutator_edit self "Pod" obj = edit_metadata self obj.
Proof.
  unfold DefaultLabelsAnnotationsMutator_edit.
  replace ("Pod" =? "Deployment") with false by reflexivity.
  now destruct (edit_metadata self obj).
Qed.

(** For a Pod the labels mutator reports mutated=true exactly when it can
    merge: the object is a dict and, unless there is nothing to merge, its
    metadata is absent or a dict, and so are the labels and the annotations
    that are to receive defaults.  Otherwise the AttributeError of the first
    value that is no dict becomes the message of a mutated=false result
    without a patch. *)
Theorem labels_mutator_succeeds_iff (self : DefaultLabelsAnnotationsMutator)
  (obj : Json) :
  mutated (fst (DefaultLabelsAnnotationsMutator_mutate self (review "Pod" obj)))
  = labels_succeed self obj
  /\ (labels_succeed self obj = false ->
      patched (fst (DefaultLabelsAnnotationsMutator_mutate self
                      (review "Pod" obj))) = None
      /\ mmessage (fst (DefaultLabelsAnnotationsMutator_mutate self
                          (review "Pod" obj))) <> None).
Proof.
  unfold DefaultLabelsAnnotationsMutator_mutate.
  rewrite mutate_by_review_pod, labels_edit_pod.
  destruct (labels_succeed self obj) eqn:H.
  - destruct (edit_metadata_succeeds self obj H) as [h1 ->].
    split; [reflexivity | discriminate].
  - destruct (edit_metadata_fails self obj H) as [e [o ->]].
    split; [reflexivity|]. intros _. split; [reflexivity | discriminate].
Qed.

(** What the merge leaves, for a Pod whose metadata, labels and annotations
    are absent or dicts: the mutator reports mutated=true and the object it
    returns is the caller's; every key of the object but ["metadata"] and
    every key of the metadata but ["labels"] and ["annotations"] is as
    before; in the labels a key that has a default holds that default,
    whether it was there before or not, and every other key is as before;
    and likewise in the annotations. *)
Theorem labels_mutator_merges (self : DefaultLabelsAnnotationsMutator)
  (o : list (string * Json)) :
  labels_applicable self (JDict o) = true ->
  let o1 := setitem o "metadata" (JDict (merged_metadata self o)) in
  DefaultLabelsAnnotationsMutator_mutate self (review "Pod" (JDict o))
  = (mkMutationResult true (Some (JDict o1)) None, review "Pod" (JDict o1))
  /\ (forall k, k <> "metadata" -> lookup k o1 = lookup k o)
  /\ (forall k,
        k <> "labels" -> k <> "annotations" ->
        lookup k (dict_at o1 "metadata") = lookup k (dict_at o "metadata"))
  /\ (forall k,
        lookup k (dict_at (dict_at o1 "metadata") "labels")
        = match merged k (default_labels self) with
          | Some v => Some (JStr v)
          | None => lookup k (dict_at (dict_at o "metadata") "labels")
          end)
  /\ (forall k,
        lookup k (dict_at (dict_at o1 "metadata") "annotations")
        = match merged k (default_annotations self) with
          | Some v => Some (JStr v)
          | None => lookup k (dict_at (dict_at o "metadata") "annotations")
          end).
Proof.
  intros H o1.
  assert (Hm : dict_at o1 "metadata" = merged_metadata self o)
    by apply dict_at_setitem_same.
  split; [|split; [|split; [|split]]].
  - unfold DefaultLabelsAnnotationsMutator_mutate.
    now rewrite mutate_by_review_pod, labels_edit_pod,
      (edit_metadata_applicable self o H).
  - intros k Hk. now apply lookup_setitem_other.
  - intros k Hl Ha. rewrite Hm. unfold merged_metadata.
    now rewrite !lookup_merge_into_other.
  - intros k. rewrite Hm. unfold merged_metadata.
    rewrite dict_at_merge_into_other by discriminate.
    apply lookup_dict_at_merge_into.
  - intros k. rewrite Hm. unfold merged_metadata.
    rewrite lookup_dict_at_merge_into.
    now rewrite dict_at_merge_into_other by apply labels_not_annotations.
Qed.

Lemma labels_mutator_merges_witness :
  DefaultLabelsAnnotationsMutator_mutate app_label
    (review "Pod" (JDict overlapping_pod))
  = (let merged_pod :=
       JDict
         [("metadata",
           JDict [("name", JStr "test-pod");
                  ("labels", JDict [("app", JStr "webhook"); ("tier", JStr "web")]);
                  ("annotations", JDict [("owner", JStr "test-user")])]);
          ("spec", JDict [("containers", JList [JDict [("name", JStr "nginx")]])])]
     in (mkMutationResult true (Some merged_pod) None, review "Pod" merged_pod)).
Proof.
  exact (proj1 (labels_mutator_merges app_label overlapping_pod eq_refl)).
Defined.

Lemma edit_metadata_done_shape (self : DefaultLabelsAnnotationsMutator)
  (holder : Json) (h1 : list (string * Json)) :
  edit_metadata self holder = Done h1 ->
  exists h mv, holder = JDict h /\ h1 = setitem h "metadata" mv.
Proof.
  unfold edit_metadata. destruct holder as [| | | | |h]; try discriminate.
  destruct (add_defaults "labels" _ _); try discriminate.
  destruct (add_defaults "annotations" _ _); try discriminate.
  intros [= <-]. eauto.
Qed.

(** The edit of the metadata only reads and writes ["metadata"]. *)
Lemma edit_metadata_fixed_elsewhere (self : DefaultLabelsAnnotationsMutator)
  (h h' : list (string * Json)) :
  edit_metadata self (JDict h) = Done h ->
  lookup "metadata" h' = lookup "metadata" h ->
  edit_metadata self (JDict h') = Done h'.
Proof.
  unfold edit_metadata, get_or, has_key. intros H Hl. rewrite Hl.
  destruct (add_defaults "labels" _ _) as [m1|e]; [|discriminate].
  destruct (add_defaults "annotations" _ _) as [m2|e]; [|discriminate].
  injection H as H.
  assert (Hm : lookup "metadata" h = Some m2)
    by (rewrite <- H at 1; apply lookup_setitem_same).
  rewrite <- Hl in Hm. now rewrite (setitem_same _ _ _ Hm).
Qed.

Lemma carries_merge_into (m : list (string * Json)) (key : string)
  (defaults : list (string * string)) :
  NoDup (map fst defaults) -> carries (merge_into m key defaults) key defaults.
Proof.
  destruct defaults as [|kv rest]; [now left|]. intros Hnd. right.
  exists (update (dict_at m key) (kv :: rest)). split.
  - apply lookup_setitem_same.
  - now apply update_idempotent.
Qed.

Lemma carries_merge_into_other (m : list (string * Json)) (key key' : string)
  (defaults defaults' : list (string * string)) :
  key <> key' ->
  carries m key defaults -> carries (merge_into m key' defaults') key defaults.
Proof.
  intros H [->|[d [Hl Hu]]]; [now left|]. right. exists d.
  split; [|exact Hu]. now rewrite lookup_merge_into_other.
Qed.

Lemma carries_merged_metadata (self : DefaultLabelsAnnotationsMutator)
  (h : list (string * Json)) :
  NoDup (map fst (default_labels self)) ->
  NoDup (map fst (default_annotations self)) ->
  carries (merged_metadata self h) "labels" (default_labels self)
  /\ carries (merged_metadata self h) "annotations" (default_annotations self).
Proof.
  intros Hl Ha. unfold merged_metadata. split.
  - apply carries_merge_into_other; [discriminate|].
    now apply carries_merge_into.
  - now apply carries_merge_into.
Qed.

Lemma edit_metadata_idempotent (self : DefaultLabelsAnnotationsMutator)
  (holder : Json) (h1 : list (string * Json)) :
  NoDup (map fst (default_labels self)) ->
  NoDup (map fst (default_annotations self)) ->
  edit_metadata self holder = Done h1 ->
  edit_metadata self (JDict h1) = Done h1.
Proof.
  intros Hl Ha Hdone.
  destruct (labels_succeed self holder) eqn:Hs.
  2:{ destruct (edit_metadata_fails self holder Hs) as [e [o He]]. congruence. }
  destruct holder as [| | | | |h]; try discriminate.
  assert (Hcases : (default_labels self = [] /\ default_annotations self = [])
                   \/ labels_applicable self (JDict h) = true).
  { unfold labels_succeed in Hs.
    destruct (default_labels self); [destruct (default_annotations self)|];
      auto. }
  destruct Hcases as [[El Ea]|Happ].
  - unfold edit_metadata, add_defaults in *. rewrite El, Ea in *.
    injection Hdone as <-. unfold get_or.
    rewrite lookup_setitem_same.
    now rewrite (setitem_same _ _ _ (lookup_setitem_same h "metadata" _)).
  - rewrite (edit_metadata_applicable self h Happ) in Hdone.
    injection Hdone as <-.
    destruct (carries_merged_metadata self h Hl Ha) as [Cl Ca].
    apply (edit_metadata_carried self _ (merged_metadata self h));
      [apply lookup_setitem_same | exact Cl | exact Ca].
Qed.

(** Run a second time on the object it returned, the labels mutator returns
    that object again, for a Pod and for a Deployment: its edit is
    idempotent.  (The keys of a [Dict] of defaults are distinct.) *)
Theorem labels_edit_idempotent (self : DefaultLabelsAnnotationsMutator)
  (kind : string) (obj : Json) (o1 : list (string * Json)) :
  NoDup (map fst (default_labels self)) ->
  NoDup (map fst (default_annotations self)) ->
  DefaultLabelsAnnotationsMutator_edit self kind obj = Done o1 ->
  DefaultLabelsAnnotationsMutator_edit self kind (JDict o1) = Done o1.
Proof.
  intros Hl Ha. unfold DefaultLabelsAnnotationsMutator_edit.
  destruct (edit_metadata self obj) as [oA|e oA] eqn:HA; [|discriminate].
  pose proof (edit_metadata_idempotent self obj oA Hl Ha HA) as HAA.
  destruct (kind =? "Deployment").
  2:{ intros [= <-]. now rewrite HAA. }
  unfold edit_template.
  destruct (get_or oA "spec" (JDict [])) as [| | | | |s] eqn:Hspec;
    try discriminate.
  destruct (edit_metadata self (get_or s "template" (JDict [])))
    as [t1|e t] eqn:HT; [|discriminate].
  destruct (has_key "spec" oA) eqn:Hk; [|discriminate].
  intros [= <-].
  set (oB := setitem oA "spec" (JDict (setitem s "template" (JDict t1)))).
  assert (HB : edit_metadata self (JDict oB) = Done oB).
  { apply (edit_metadata_fixed_elsewhere self oA oB HAA).
    unfold oB. now rewrite lookup_setitem_other by discriminate. }
  rewrite HB.
  assert (Hs : lookup "spec" oB = Some (JDict (setitem s "template" (JDict t1))))
    by apply lookup_setitem_same.
  unfold get_or. rewrite Hs, lookup_setitem_same.
  rewrite (edit_metadata_idempotent self _ t1 Hl Ha HT).
  unfold has_key. rewrite Hs.
  rewrite (setitem_same _ _ _ (lookup_setitem_same s "template" (JDict t1))).
  now rewrite (setitem_same _ _ _ Hs).
Qed.

Lemma labels_edit_idempotent_witness :
  DefaultLabelsAnnotationsMutator_edit app_label "Pod"
    (JDict (setitem overlapping_pod "metadata"
              (JDict (merged_metadata app_label overlapping_pod))))
  = Done (setitem overlapping_pod "metadata"
            (JDict (merged_metadata app_label overlapping_pod))).
Proof.
  apply (labels_edit_idempotent app_label "Pod" (JDict overlapping_pod)).
  - repeat constructor; simpl; intuition discriminate.
  - repeat constructor; simpl; intuition discriminate.
  - reflexivity.
Defined.

(** A Deployment whose object has no ["spec"] is never mutated by the labels
    mutator: the metadata of the object is edited first, then
    [obj["spec"]["template"] = template] raises KeyError.  The result is
    mutated=false with the message ['spec'], and the caller's object has its
    ["metadata"] set while every other key is as before. *)
Theorem labels_mutator_deployment_without_spec
  (self : DefaultLabelsAnnotationsMutator) (o : list (string * Json)) :
  lookup "spec" o = None ->
  labels_succeed self (JDict o) = true ->
  exists o1,
    DefaultLabelsAnnotationsMutator_mutate self (review "Deployment" (JDict o))
    = (mkMutationResult false None (Some "'spec'"),
       review "Deployment" (JDict o1))
    /\ has_key "metadata" o1 = true
    /\ (forall k, k <> "metadata" -> lookup k o1 = lookup k o).
Proof.
  intros Hspec Hs.
  destruct (edit_metadata_succeeds self (JDict o) Hs) as [oA HA].
  destruct (edit_metadata_done_shape self _ _ HA) as [h [mv [[= <-] ->]]].
  exists (setitem o "metadata" mv).
  assert (HspecA : lookup "spec" (setitem o "metadata" mv) = None)
    by (now rewrite lookup_setitem_other by discriminate).
  assert (Hfresh : labels_succeed self (JDict []) = true).
  { unfold labels_succeed, labels_applicable, mergeable.
    now destruct (default_labels self), (default_annotations self). }
  destruct (edit_metadata_succeeds self (JDict []) Hfresh) as [t1 HT].
  split; [|split].
  - unfold DefaultLabelsAnnotationsMutator_mutate.
    rewrite mutate_by_review_deployment.
    unfold DefaultLabelsAnnotationsMutator_edit. rewrite HA.
    replace ("Deployment" =? "Deployment") with true by reflexivity.
    unfold edit_template, get_or, has_key. rewrite HspecA.
    cbn [lookup]. now rewrite HT.
  - unfold has_key. now rewrite lookup_setitem_same.
  - intros k Hk. now apply lookup_setitem_other.
Qed.

Lemma labels_mutator_deployment_without_spec_witness :
  exists o1,
    DefaultLabelsAnnotationsMutator_mutate app_label
      (review "Deployment" (JDict [("metadata", JDict [("name", JStr "web")])]))
    = (mkMutationResult false None (Some "'spec'"),
       review "Deployment" (JDict o1))
    /\ has_key "metadata" o1 = true
    /\ (forall k, k <> "metadata" ->
                  lookup k o1 = lookup k [("metadata", JDict [("name", JStr "web")])]).
Proof.
  apply (labels_mutator_deployment_without_spec app_label
           [("metadata", JDict [("name", JStr "web")])] eq_refl eq_refl).
Defined.

(** ** Deployments under the validators *)

(** [_validate] reads the containers at [object.spec.containers] only, where
    a Pod has them; a Deployment keeps them at
    [object.spec.template.spec.containers].  So an object whose [spec] has no
    ["containers"] passes the image and resource checks whatever its template
    holds, and the security check too unless [spec] itself asks for the host
    network. *)
Theorem _validate_ignores_pod_template (request pod spec : list (string * Json)) :
  lookup "object" request = Some (JDict pod) ->
  lookup "spec" pod = Some (JDict spec) ->
  lookup "containers" spec = None ->
  (forall self, ImagePolicyValidator__validate self (JDict request)
                = allow_with "Image policy validation passed")
  /\ (forall self, ResourceRequirementsValidator__validate self (JDict request)
                   = allow_with "Resource requirements validation passed")
  /\ (forall self,
         truthy (get_or spec "hostNetwork" (JBool false)) = false ->
         SecurityContextValidator__validate self (JDict request)
         = allow_with "Security context validation passed").
Proof.
  intros Ho Hs Hc.
  pose proof (pod_spec_of_typed request pod spec Ho Hs) as Hp.
  unfold get_or in Hp. rewrite Hc in Hp.
  repeat split; intros self;
    unfold ImagePolicyValidator__validate,
      ResourceRequirementsValidator__validate,
      SecurityContextValidator__validate;
    rewrite Hp; try reflexivity.
  intros Hh. cbn [bind]. rewrite py_get_dict. unfold when.
  destruct (enforce_host_network self); cbn [bind]; [now rewrite Hh|reflexivity].
Qed.

Lemma _validate_ignores_pod_template_witness :
  ImagePolicyValidator__validate default_image_policy
    (JDict [("object", JDict privileged_deployment)])
  = allow_with "Image policy validation passed"
  /\ SecurityContextValidator__validate strict_security
       (JDict [("object", JDict privileged_deployment)])
     = allow_with "Security context validation passed".
Proof.
  pose proof (_validate_ignores_pod_template
                [("object", JDict privileged_deployment)]
                privileged_deployment
                (dict_at privileged_deployment "spec")
                eq_refl eq_refl eq_refl) as [Hi [_ Hs]].
  split; [apply Hi | apply Hs; reflexivity].
Defined.

(** ** The two mutators of the pod spec *)

Lemma mutate_by_review (edit : string -> Json -> Edit) (kind : string)
  (obj : Json) :
  kind = "Pod" \/ kind = "Deployment" ->
  mutate_by edit (review kind obj)
  = match edit kind obj with
    | Done o1 =>
        (mkMutationResult true (Some (JDict o1)) None, review kind (JDict o1))
    | Failed e o1 =>
        (mkMutationResult false None (Some (str_exn e)), review kind o1)
    end.
Proof. intros [->| ->]; reflexivity. Qed.

Lemma edit_each_map (step : Json -> Exc Json) (f : Json -> Json)
  (items : list Json) :
  Forall (fun item => step item = Ok (f item)) items ->
  edit_each step items = (map f items, None).
Proof.
  induction 1 as [|item rest Hi _ IH]; simpl; [reflexivity|].
  now rewrite Hi, IH.
Qed.

Lemma edit_each_stops (step : Json -> Exc Json) (f : Json -> Json)
  (pre post : list Json) (bad : Json) (e : exn) :
  Forall (fun item => step item = Ok (f item)) pre ->
  step bad = Raise e ->
  edit_each step (pre ++ bad :: post) = (map f pre ++ bad :: post, Some e)%list.
Proof.
  intros Hpre Hbad. induction Hpre as [|item rest Hi _ IH]; simpl.
  - now rewrite Hbad.
  - now rewrite Hi, IH.
Qed.

Lemma typed_containers_setitem (spec : list (string * Json)) (k : string)
  (v : Json) (typed : Json -> bool) :
  k <> "containers" ->
  typed_containers (setitem spec k v) typed = typed_containers spec typed.
Proof.
  intros H. unfold typed_containers.
  rewrite lookup_setitem_other; [reflexivity|]. congruence.
Qed.

(** The shared body on a pod spec that is a dict whose containers, if it has
    any, are a list of dicts: [first] and the [step]s are made, and the
    outcome is that of writing the pod spec back. *)
Lemma edit_pod_spec_typed (first step : Json -> Exc Json) (f : Json -> Json)
  (kind : string) (o p p1 : list (string * Json)) :
  pod_spec_at kind o = Ok (JDict p) ->
  first (JDict p) = Ok (JDict p1) ->
  typed_containers p1 is_dict = true ->
  (forall c, step (JDict c) = Ok (f (JDict c))) ->
  edit_pod_spec first step kind (JDict o)
  = match put_pod_spec kind o (JDict (map_containers f p1)) with
    | Ok o1 => Done o1
    | Raise e => Failed e (JDict o)
    end.
Proof.
  intros Hps Hfirst Ht Hstep. unfold edit_pod_spec.
  rewrite Hps, Hfirst, py_get_dict. unfold get_or, map_containers, has_key.
  unfold typed_containers in Ht.
  destruct (lookup "containers" p1) as [[| | | |cs|]|]; try discriminate.
  - cbn [bind py_iter].
    rewrite (edit_each_map step f cs).
    + destruct (put_pod_spec kind o _); [reflexivity|].
      now destruct (pod_spec_attached kind o).
    + apply Forall_forall. intros c Hin.
      pose proof (proj1 (forallb_forall _ _) Ht c Hin) as Hd.
      destruct c; try discriminate. apply Hstep.
  - cbn [bind py_iter edit_each].
    destruct (put_pod_spec kind o _); [reflexivity|].
    now destruct (pod_spec_attached kind o).
Qed.

(** Where the two mutators write the pod spec back is where they read it
    from: once [obj["spec"] = pod_spec] (Pod) or
    [obj["spec"]["template"]["spec"] = pod_spec] (Deployment) has gone
    through, the read path gives that pod spec, as a part of the object, and
    the keys of the object other than ["spec"] are as before. *)
Theorem put_pod_spec_round_trip (kind : string) (o o1 : list (string * Json))
  (pod_spec : Json) :
  kind = "Pod" \/ kind = "Deployment" ->
  put_pod_spec kind o pod_spec = Ok o1 ->
  pod_spec_at kind o1 = Ok pod_spec
  /\ pod_spec_attached kind o1 = true
  /\ (forall k, k <> "spec" -> lookup k o1 = lookup k o).
Proof.
  intros [->| ->]; unfold put_pod_spec, pod_spec_at, pod_spec_attached.
  - replace ("Pod" =? "Pod") with true by reflexivity.
    replace ("Pod" =? "Deployment") with false by reflexivity.
    intros [= <-]. unfold get_or, has_key. rewrite lookup_setitem_same.
    repeat split. intros k Hk. now apply lookup_setitem_other.
  - replace ("Deployment" =? "Pod") with false by reflexivity.
    replace ("Deployment" =? "Deployment") with true by reflexivity.
    destruct (lookup "spec" o) as [[| | | | |s]|]; try discriminate.
    destruct (lookup "template" s) as [[| | | | |t]|]; try discriminate.
    cbn [py_setitem bind]. intros [= <-].
    unfold get_or, has_key. rewrite lookup_setitem_same, py_get_dict.
    unfold get_or. rewrite lookup_setitem_same. cbn [bind].
    rewrite py_get_dict. unfold get_or. rewrite !lookup_setitem_same.
    repeat split. intros k Hk. now apply lookup_setitem_other.
Qed.

Lemma put_pod_spec_round_trip_witness :
  pod_spec_at "Deployment"
    (setitem privileged_deployment "spec"
       (JDict (setitem (dict_at privileged_deployment "spec") "template"
                 (JDict [("spec", JDict [])]))))
  = Ok (JDict []).
Proof.
  apply (put_pod_spec_round_trip "Deployment" privileged_deployment _ (JDict [])
           (or_intror eq_refl) eq_refl).
Defined.

Lemma secure_secured (self : DefaultSecurityContextMutator) (cs : list Json) :
  forallb is_dict cs = true -> Forall (secured self) (map (secure self) cs).
Proof.
  intros H. apply Forall_forall. intros c1 Hin.
  apply in_map_iff in Hin as [c [<- Hin]].
  pose proof (proj1 (forallb_forall _ _) H c Hin) as Hd.
  destruct c as [| | | | |d]; try discriminate.
  exists (setitem d "securityContext"
            (get_default_container_security_context self)).
  split; [reflexivity | apply lookup_setitem_same].
Qed.

Lemma containers_of_map_containers (f : Json -> Json)
  (spec : list (string * Json)) (typed : Json -> bool) :
  typed_containers spec typed = true ->
  containers_of (map_containers f spec) = map f (containers_of spec).
Proof.
  unfold typed_containers, containers_of, map_containers.
  destruct (lookup "containers" spec) as [[| | | |cs|]|] eqn:E;
    try discriminate; intros _.
  - now rewrite lookup_setitem_same.
  - now rewrite E.
Qed.

Lemma lookup_map_containers (f : Json -> Json) (spec : list (string * Json))
  (k : string) :
  k <> "containers" -> lookup k (map_containers f spec) = lookup k spec.
Proof.
  intros H. unfold map_containers.
  destruct (lookup "containers" spec) as [[| | | |cs|]|]; try reflexivity.
  now apply lookup_setitem_other.
Qed.

Lemma containers_of_setitem (spec : list (string * Json)) (k : string)
  (v : Json) :
  k <> "containers" -> containers_of (setitem spec k v) = containers_of spec.
Proof.
  intros H. unfold containers_of.
  rewrite lookup_setitem_other; [reflexivity | congruence].
Qed.

Lemma security_edit_typed (self : DefaultSecurityContextMutator)
  (kind : string) (o p : list (string * Json)) :
  pod_spec_at kind o = Ok (JDict p) ->
  typed_containers p is_dict = true ->
  DefaultSecurityContextMutator_edit self kind (JDict o)
  = match put_pod_spec kind o (JDict (secured_spec self p)) with
    | Ok o1 => Done o1
    | Raise e => Failed e (JDict o)
    end.
Proof.
  intros Hps Ht. unfold DefaultSecurityContextMutator_edit, secured_spec.
  apply (edit_pod_spec_typed _ _ (secure self) kind o p _ Hps).
  - reflexivity.
  - rewrite typed_containers_setitem; [exact Ht | discriminate].
  - reflexivity.
Qed.

(** On a Pod or a Deployment whose pod spec is a dict with a list of dicts for
    containers (or none), the security mutator puts its default security
    context on the pod spec and on every container, replacing the one that
    was there and leaving every other key alone; its result is that of
    writing this pod spec back. *)
Theorem security_mutator_overwrites (self : DefaultSecurityContextMutator)
  (kind : string) (o p : list (string * Json)) :
  kind = "Pod" \/ kind = "Deployment" ->
  pod_spec_at kind o = Ok (JDict p) ->
  typed_containers p is_dict = true ->
  DefaultSecurityContextMutator_mutate self (review kind (JDict o))
  = match put_pod_spec kind o (JDict (secured_spec self p)) with
    | Ok o1 =>
        (mkMutationResult true (Some (JDict o1)) None, review kind (JDict o1))
    | Raise e =>
        (mkMutationResult false None (Some (str_exn e)), review kind (JDict o))
    end
  /\ lookup "securityContext" (secured_spec self p)
     = Some (get_default_pod_security_context self)
  /\ containers_of (secured_spec self p) = map (secure self) (containers_of p)
  /\ Forall (secured self) (containers_of (secured_spec self p))
  /\ (forall k, k <> "securityContext" -> k <> "containers" ->
                lookup k (secured_spec self p) = lookup k p)
  /\ (forall c k, k <> "securityContext" ->
                  exists c1, secure self (JDict c) = JDict c1
                             /\ lookup k c1 = lookup k c).
Proof.
  intros Hk Hps Ht.
  assert (Ht1 : typed_containers
                  (setitem p "securityContext"
                     (get_default_pod_security_context self)) is_dict = true)
    by (rewrite typed_containers_setitem; [exact Ht | discriminate]).
  assert (Hcs : containers_of (secured_spec self p)
                = map (secure self) (containers_of p)).
  { unfold secured_spec.
    rewrite (containers_of_map_containers _ _ is_dict Ht1).
    now rewrite containers_of_setitem by discriminate. }
  split; [|split; [|split; [|split; [|split]]]].
  - unfold DefaultSecurityContextMutator_mutate.
    rewrite (mutate_by_review _ kind _ Hk).
    rewrite (security_edit_typed self kind o p Hps Ht).
    now destruct (put_pod_spec kind o _).
  - unfold secured_spec. rewrite lookup_map_containers by discriminate.
    apply lookup_setitem_same.
  - exact Hcs.
  - rewrite Hcs. apply secure_secured.
    unfold typed_containers, containers_of in *.
    now destruct (lookup "containers" p) as [[| | | |cs|]|].
  - intros k Hs Hc. unfold secured_spec.
    rewrite lookup_map_containers by exact Hc.
    now apply lookup_setitem_other.
  - intros c k Hs. eexists. split; [reflexivity|].
    now apply lookup_setitem_other.
Qed.

Lemma security_mutator_overwrites_witness :
  DefaultSecurityContextMutator_mutate default_security
    (review "Pod" (JDict half_resourced_pod))
  = (let secured_pod :=
       JDict (setitem half_resourced_pod "spec"
                (JDict (secured_spec default_security
                          (dict_at half_resourced_pod "spec")))) in
     (mkMutationResult true (Some secured_pod) None, review "Pod" secured_pod)).
Proof.
  exact (proj1 (security_mutator_overwrites default_security "Pod"
                  half_resourced_pod (dict_at half_resourced_pod "spec")
                  (or_introl eq_refl) eq_refl eq_refl)).
Defined.

Lemma resources_step_fill (self : DefaultResourcesMutator)
  (c : list (string * Json)) :
  (absent <- py_not_in "resources" (JDict c) ;;
   if absent
   then py_setitem (JDict c) "resources" (get_default_resources self)
   else Ok (JDict c))
  = Ok (fill self (JDict c)).
Proof.
  unfold py_not_in, fill. cbn [py_in bind].
  now destruct (has_key "resources" c).
Qed.

Lemma resources_edit_typed (self : DefaultResourcesMutator)
  (kind : string) (o p : list (string * Json)) :
  pod_spec_at kind o = Ok (JDict p) ->
  typed_containers p is_dict = true ->
  DefaultResourcesMutator_edit self kind (JDict o)
  = match put_pod_spec kind o (JDict (map_containers (fill self) p)) with
    | Ok o1 => Done o1
    | Raise e => Failed e (JDict o)
    end.
Proof.
  intros Hps Ht. unfold DefaultResourcesMutator_edit.
  apply (edit_pod_spec_typed _ _ (fill self) kind o p p Hps);
    [reflexivity | exact Ht |].
  intros c. apply resources_step_fill.
Qed.

(** On a Pod or a Deployment whose pod spec is a dict with a list of dicts for
    containers (or none), the resources mutator gives its default resources
    to the containers that have no ["resources"] key and leaves the others as
    they are, whatever they hold under that key; nothing else changes, and
    its result is that of writing this pod spec back. *)
Theorem resources_mutator_fills (self : DefaultResourcesMutator)
  (kind : string) (o p : list (string * Json)) :
  kind = "Pod" \/ kind = "Deployment" ->
  pod_spec_at kind o = Ok (JDict p) ->
  typed_containers p is_dict = true ->
  let p1 := map_containers (fill self) p in
  DefaultResourcesMutator_mutate self (review kind (JDict o))
  = match put_pod_spec kind o (JDict p1) with
    | Ok o1 =>
        (mkMutationResult true (Some (JDict o1)) None, review kind (JDict o1))
    | Raise e =>
        (mkMutationResult false None (Some (str_exn e)), review kind (JDict o))
    end
  /\ containers_of p1 = map (fill self) (containers_of p)
  /\ (forall k, k <> "containers" -> lookup k p1 = lookup k p)
  /\ (forall c, resourced c -> fill self c = c)
  /\ (forall c,
         has_key "resources" c = false ->
         exists c1,
           fill self (JDict c) = JDict c1
           /\ lookup "resources" c1 = Some (get_default_resources self)
           /\ (forall k, k <> "resources" -> lookup k c1 = lookup k c)).
Proof.
  intros Hk Hps Ht p1. split; [|split; [|split; [|split]]].
  - unfold DefaultResourcesMutator_mutate.
    rewrite (mutate_by_review _ kind _ Hk).
    rewrite (resources_edit_typed self kind o p Hps Ht).
    now destruct (put_pod_spec kind o _).
  - apply (containers_of_map_containers _ _ is_dict Ht).
  - intros k Hc. now apply lookup_map_containers.
  - intros c [d [-> Hd]]. unfold fill. now rewrite Hd.
  - intros c Hc. unfold fill. rewrite Hc. eexists. split; [reflexivity|].
    split; [apply lookup_setitem_same|].
    intros k Hne. now apply lookup_setitem_other.
Qed.

Lemma resources_mutator_fills_witness :
  DefaultResourcesMutator_mutate default_resources
    (review "Pod" (JDict half_resourced_pod))
  = (let filled_pod :=
       JDict
         [("metadata", JDict [("name", JStr "test-pod")]);
          ("spec",
           JDict
             [("containers",
               JList
                 [JDict [("name", JStr "nginx");
                         ("resources",
                          JDict [("limits", JDict [("cpu", JStr "2")])])];
                  JDict [("name", JStr "sidecar");
                         ("securityContext", JDict [("privileged", JBool true)]);
                         ("resources", get_default_resources default_resources)]])])]
     in (mkMutationResult true (Some filled_pod) None, review "Pod" filled_pod)).
Proof.
  exact (proj1 (resources_mutator_fills default_resources "Pod"
                  half_resourced_pod (dict_at half_resourced_pod "spec")
                  (or_introl eq_refl) eq_refl eq_refl)).
Defined.

(** *** Deployments without a pod template *)

Lemma put_pod_spec_no_template (o : list (string * Json)) (pod_spec : Json) :
  dict_field o "spec" = true ->
  lookup "template" (dict_at o "spec") = None ->
  put_pod_spec "Deployment" o pod_spec
  = Raise (KeyError (if has_key "spec" o then "template" else "spec")).
Proof.
  unfold dict_field, dict_at, put_pod_spec, has_key.
  replace ("Deployment" =? "Pod") with false by reflexivity.
  destruct (lookup "spec" o) as [[| | | | |s]|]; try discriminate;
    [|reflexivity].
  intros _ Ht. now rewrite Ht.
Qed.

Lemma pod_spec_at_no_template (o : list (string * Json)) :
  dict_field o "spec" = true ->
  lookup "template" (dict_at o "spec") = None ->
  pod_spec_at "Deployment" o = Ok (JDict []).
Proof.
  unfold dict_field, dict_at, pod_spec_at, get_or.
  replace ("Deployment" =? "Deployment") with true by reflexivity.
  destruct (lookup "spec" o) as [[| | | | |s]|]; try discriminate;
    [|reflexivity].
  intros _ Ht. rewrite py_get_dict. unfold get_or. now rewrite Ht.
Qed.

(** A Deployment with no ["spec"], or with a ["spec"] that has no
    ["template"], is refused by both mutators of the pod spec: they edit a
    fresh [{}], then the write-back raises KeyError, and the result is
    mutated=false with the quoted key as the message.  The object is left as
    it was. *)
Theorem pod_spec_mutators_need_template (o : list (string * Json)) :
  dict_field o "spec" = true ->
  lookup "template" (dict_at o "spec") = None ->
  let refused :=
    (mkMutationResult false None
       (Some (if has_key "spec" o then "'template'" else "'spec'")),
     review "Deployment" (JDict o)) in
  (forall self,
      DefaultSecurityContextMutator_mutate self (review "Deployment" (JDict o))
      = refused)
  /\ (forall self,
         DefaultResourcesMutator_mutate self (review "Deployment" (JDict o))
         = refused).
Proof.
  intros Hs Ht refused.
  pose proof (pod_spec_at_no_template o Hs Ht) as Hps.
  split; intros self.
  - unfold DefaultSecurityContextMutator_mutate.
    rewrite mutate_by_review_deployment.
    rewrite (security_edit_typed self "Deployment" o [] Hps eq_refl).
    rewrite (put_pod_spec_no_template o _ Hs Ht).
    unfold refused. now destruct (has_key "spec" o).
  - unfold DefaultResourcesMutator_mutate.
    rewrite mutate_by_review_deployment.
    rewrite (resources_edit_typed self "Deployment" o [] Hps eq_refl).
    rewrite (put_pod_spec_no_template o _ Hs Ht).
    unfold refused. now destruct (has_key "spec" o).
Qed.

Lemma pod_spec_mutators_need_template_witness :
  DefaultSecurityContextMutator_mutate default_security
    (review "Deployment" (JDict [("spec", JDict [("replicas", JInt 2)])]))
  = (mkMutationResult false None (Some "'template'"),
     review "Deployment" (JDict [("spec", JDict [("replicas", JInt 2)])])).
Proof.
  apply (proj1 (pod_spec_mutators_need_template
                  [("spec", JDict [("replicas", JInt 2)])] eq_refl eq_refl)).
Defined.

(** *** A failure among the containers *)

Lemma put_pod_spec_attached (kind : string) (o : list (string * Json))
  (pod_spec : Json) :
  kind = "Pod" \/ kind = "Deployment" ->
  pod_spec_attached kind o = true ->
  exists o1, put_pod_spec kind o pod_spec = Ok o1.
Proof.
  intros [->| ->]; unfold pod_spec_attached, put_pod_spec.
  - replace ("Pod" =? "Pod") with true by reflexivity. eauto.
  - replace ("Deployment" =? "Pod") with false by reflexivity.
    replace ("Deployment" =? "Deployment") with true by reflexivity.
    destruct (lookup "spec" o) as [[| | | | |s]|]; try discriminate.
    destruct (lookup "template" s) as [[| | | | |t]|]; try discriminate.
    cbn [py_setitem bind]. eauto.
Qed.

(** A container that is no dict makes the security mutator fail, but only
    after it has rewritten, in the object the caller holds, the security
    context of the pod spec and of every container before that one: the
    result is mutated=false with the text of the TypeError, and the object
    shows the edits made so far. *)
Theorem security_mutator_fails_midway (self : DefaultSecurityContextMutator)
  (kind : string) (o p : list (string * Json)) (pre post : list Json)
  (bad : Json) :
  kind = "Pod" \/ kind = "Deployment" ->
  pod_spec_at kind o = Ok (JDict p) ->
  pod_spec_attached kind o = true ->
  lookup "containers" p = Some (JList (pre ++ bad :: post)) ->
  forallb is_dict pre = true ->
  is_dict bad = false ->
  exists e o1,
    py_setitem bad "securityContext"
      (get_default_container_security_context self) = Raise e
    /\ put_pod_spec kind o
         (JDict (setitem
                   (setitem p "securityContext"
                      (get_default_pod_security_context self))
                   "containers"
                   (JList (map (secure self) pre ++ bad :: post))))
       = Ok o1
    /\ DefaultSecurityContextMutator_mutate self (review kind (JDict o))
       = (mkMutationResult false None (Some (str_exn e)),
          review kind (JDict o1)).
Proof.
  intros Hk Hps Hatt Hc Hpre Hbad.
  assert (He : exists e,
             py_setitem bad "securityContext"
               (get_default_container_security_context self) = Raise e)
    by (destruct bad; try discriminate; eexists; reflexivity).
  destruct He as [e He].
  destruct (put_pod_spec_attached kind o
              (JDict (setitem
                        (setitem p "securityContext"
                           (get_default_pod_security_context self))
                        "containers"
                        (JList (map (secure self) pre ++ bad :: post))))
              Hk Hatt) as [o1 Hput].
  exists e, o1. split; [exact He|]. split; [exact Hput|].
  unfold DefaultSecurityContextMutator_mutate.
  rewrite (mutate_by_review _ kind _ Hk).
  unfold DefaultSecurityContextMutator_edit, edit_pod_spec.
  rewrite Hps, Hatt. cbn [py_setitem]. rewrite py_get_dict.
  unfold get_or, has_key.
  rewrite (lookup_setitem_other p "containers" "securityContext")
    by discriminate.
  rewrite Hc. cbn [bind py_iter].
  rewrite (edit_each_stops _ (secure self) pre post bad e).
  - now rewrite Hput.
  - apply Forall_forall. intros c Hin.
    pose proof (proj1 (forallb_forall _ _) Hpre c Hin) as Hd.
    now destruct c.
  - exact He.
Qed.

Lemma security_mutator_fails_midway_witness :
  exists e o1,
    py_setitem (JStr "sidecar") "securityContext"
      (get_default_container_security_context default_security) = Raise e
    /\ put_pod_spec "Pod"
         [("spec", JDict [("containers",
                           JList [JDict [("name", JStr "nginx")];
                                  JStr "sidecar"])])]
         (JDict (setitem
                   (setitem
                      [("containers",
                        JList [JDict [("name", JStr "nginx")]; JStr "sidecar"])]
                      "securityContext"
                      (get_default_pod_security_context default_security))
                   "containers"
                   (JList (map (secure default_security)
                             [JDict [("name", JStr "nginx")]]
                           ++ JStr "sidecar" :: []))))
       = Ok o1
    /\ DefaultSecurityContextMutator_mutate default_security
         (review "Pod"
            (JDict [("spec",
                     JDict [("containers",
                             JList [JDict [("name", JStr "nginx")];
                                    JStr "sidecar"])])]))
       = (mkMutationResult false None (Some (str_exn e)),
          review "Pod" (JDict o1)).
Proof.
  apply (security_mutator_fails_midway default_security "Pod"
           [("spec", JDict [("containers",
                             JList [JDict [("name", JStr "nginx")];
                                    JStr "sidecar"])])]
           [("containers",
             JList [JDict [("name", JStr "nginx")]; JStr "sidecar"])]
           [JDict [("name", JStr "nginx")]] [] (JStr "sidecar")
           (or_introl eq_refl) eq_refl eq_refl eq_refl eq_refl eq_refl).
Defined.

(** ** A chain of the repository's mutators *)

Lemma put_pod_spec_nonempty (kind : string) (o o1 : list (string * Json))
  (pod_spec : Json) :
  put_pod_spec kind o pod_spec = Ok o1 -> o1 <> [].
Proof.
  unfold put_pod_spec. destruct (kind =? "Pod").
  - intros [= <-]. apply setitem_nonempty.
  - destruct (lookup "spec" o) as [[| | | | |s]|]; try discriminate.
    destruct (lookup "template" s) as [t|]; [|discriminate].
    destruct (py_setitem t "spec" pod_spec); [|discriminate].
    cbn [bind]. intros [= <-]. apply setitem_nonempty.
Qed.

Lemma edit_pod_spec_done (first step : Json -> Exc Json) (kind : string)
  (obj : Json) (o1 : list (string * Json)) :
  edit_pod_spec first step kind obj = Done o1 ->
  exists o pod_spec, obj = JDict o /\ put_pod_spec kind o pod_spec = Ok o1.
Proof.
  unfold edit_pod_spec. destruct obj as [| | | | |o]; try discriminate.
  destruct (pod_spec_at kind o) as [pod_spec|]; [|discriminate].
  destruct (first pod_spec) as [pod_spec1|]; [|discriminate].
  destruct (containers <- py_get pod_spec1 "containers" (JList []) ;;
            items <- py_iter containers ;; Ok (containers, items))
    as [[containers items]|]; [|discriminate].
  destruct (edit_each step items) as [items1 [e|]]; [discriminate|].
  match goal with
  | |- context [put_pod_spec kind o ?ps] =>
      destruct (put_pod_spec kind o ps) as [o2|] eqn:Hput; [|discriminate];
      intros [= <-]; exists o, ps; auto
  end.
Qed.

Lemma default_edit_nonempty (m : DefaultMutator) (kind : string) (obj : Json)
  (o1 : list (string * Json)) :
  default_edit m kind obj = Done o1 -> o1 <> [].
Proof.
  destruct m as [self|self|self]; cbn [default_edit].
  - unfold DefaultLabelsAnnotationsMutator_edit.
    destruct (edit_metadata self obj) as [oA|] eqn:HA; [|discriminate].
    destruct (edit_metadata_done_shape self _ _ HA) as [h [mv [_ ->]]].
    destruct (kind =? "Deployment").
    + unfold edit_template.
      destruct (get_or _ "spec" (JDict [])) as [| | | | |s]; try discriminate.
      destruct (edit_metadata self (get_or s "template" (JDict [])));
        [|discriminate].
      destruct (has_key "spec" _); [|discriminate].
      intros [= <-]. apply setitem_nonempty.
    + intros [= <-]. apply setitem_nonempty.
  - intros H. destruct (edit_pod_spec_done _ _ _ _ _ H) as [o [ps [_ Hp]]].
    exact (put_pod_spec_nonempty _ _ _ _ Hp).
  - intros H. destruct (edit_pod_spec_done _ _ _ _ _ H) as [o [ps [_ Hp]]].
    exact (put_pod_spec_nonempty _ _ _ _ Hp).
Qed.

(** A mutator of the repository that reports success hands back a dict that
    is not empty. *)
Lemma default_mutate_patched (m : DefaultMutator) (a : arg) :
  mutated (fst (default_mutate m a)) = true ->
  exists o1, patched (fst (default_mutate m a)) = Some (JDict o1) /\ o1 <> [].
Proof.
  unfold default_mutate, mutate_by.
  destruct (rq <- attr_request a ;; kind <- attr_kind_kind rq ;; Ok (rq, kind))
    as [[rq kind]|]; [|discriminate].
  destruct (negb ((kind =? "Pod") || (kind =? "Deployment"))); [discriminate|].
  destruct (default_edit m kind (object rq)) as [o1|] eqn:He; [|discriminate].
  intros _. exists o1. split; [reflexivity|].
  exact (default_edit_nonempty _ _ _ _ He).
Qed.

Lemma append_patch_nonempty (ps : list Json) (result : MutationResult) :
  ps <> [] -> append_patch ps result <> [].
Proof.
  intros H. unfold append_patch.
  destruct (patched result) as [p|]; [|exact H].
  destruct (truthy p); [|exact H].
  destruct ps; [contradiction | discriminate].
Qed.

Lemma default_loop_payload (ms : list DefaultMutator) :
  forall (a : arg) (ps : list Json),
    ps <> [] ->
    (exists result,
        fst (MutatorChain_loop (map default_mutator ms) a ps) = Returned result
        /\ mutated result = false)
    \/ (exists ps',
           fst (MutatorChain_loop (map default_mutator ms) a ps)
           = Rejected (JList ps')
           /\ ps' <> []).
Proof.
  induction ms as [|m ms IH]; intros a ps Hps.
  - right. exists ps. split; [|exact Hps].
    destruct ps; [contradiction | reflexivity].
  - cbn [map MutatorChain_loop default_mutator as_mutator msupports mutate
           BaseMutator_supports].
    destruct (default_mutate m a) as [result a'].
    destruct (mutated result) eqn:Hm; cbn [negb].
    + apply IH. now apply append_patch_nonempty.
    + left. exists result. split; [reflexivity | exact Hm].
Qed.

(** A chain that holds at least one of the repository's mutators never
    returns a result with mutated=true.  When one of them declines or fails,
    the chain returns that mutated=false result; when all of them succeed,
    the list of the objects they handed back is refused as the [patched] of
    a [MutationResult], and the call ends in that error. *)
Theorem default_chain_never_succeeds (m : DefaultMutator)
  (ms : list DefaultMutator) (a : arg) :
  (exists result,
      fst (MutatorChain_mutate (map default_mutator (m :: ms)) a)
      = Returned result
      /\ mutated result = false)
  \/ (exists ps,
         fst (MutatorChain_mutate (map default_mutator (m :: ms)) a)
         = Rejected (JList ps)
         /\ ps <> []).
Proof.
  unfold MutatorChain_mutate.
  cbn [map MutatorChain_loop default_mutator as_mutator msupports mutate
         BaseMutator_supports].
  pose proof (default_mutate_patched m a) as Hp.
  destruct (default_mutate m a) as [result a'].
  destruct (mutated result) eqn:Hm; cbn [negb].
  - apply default_loop_payload.
    destruct (Hp Hm) as [o1 [Hpatched Hne]]. cbn [fst] in Hpatched.
    unfold append_patch. rewrite Hpatched.
    destruct o1; [contradiction | discriminate].
  - left. exists result. split; [reflexivity | exact Hm].
Qed.

(** ** Mutation, then validation *)

Lemma for_each_none (body : Json -> Exc (option ValidationResult))
  (items : list Json) (done : ValidationResult) :
  Forall (fun item => body item = Ok None) items ->
  for_each body items done = Ok done.
Proof.
  induction 1 as [|item rest Hi _ IH]; [reflexivity|].
  cbn [for_each]. rewrite Hi. exact IH.
Qed.

Lemma typed_containers_get (spec : list (string * Json)) (typed : Json -> bool) :
  typed_containers spec typed = true ->
  get_or spec "containers" (JList []) = JList (containers_of spec).
Proof.
  unfold typed_containers, get_or, containers_of.
  now destruct (lookup "containers" spec) as [[| | | |cs|]|].
Qed.

Lemma typed_containers_map (f : Json -> Json) (spec : list (string * Json))
  (typed : Json -> bool) :
  typed_containers spec typed = true ->
  get_or (map_containers f spec) "containers" (JList [])
  = JList (map f (containers_of spec)).
Proof.
  unfold typed_containers, get_or, containers_of, map_containers.
  destruct (lookup "containers" spec) as [[| | | |cs|]|] eqn:E;
    try discriminate; intros _.
  - now rewrite lookup_setitem_same.
  - now rewrite E.
Qed.

Lemma typed_containers_all (spec : list (string * Json)) (typed : Json -> bool) :
  typed_containers spec typed = true ->
  Forall (fun c => typed c = true) (containers_of spec).
Proof.
  unfold typed_containers, containers_of.
  destruct (lookup "containers" spec) as [[| | | |cs|]|];
    try discriminate; [|constructor].
  intros H. apply Forall_forall. now apply forallb_forall.
Qed.

Lemma SecurityContext_container_secure (self : DefaultSecurityContextMutator)
  (cfg : SecurityContextValidator) (c : list (string * Json)) :
  read_only_root_filesystem self = true ->
  run_as_user self <> Some 0%Z ->
  SecurityContext_container cfg (secure self (JDict c)) = Ok None.
Proof.
  intros Hro Hu. unfold SecurityContext_container, secure.
  rewrite py_get_dict. unfold get_or. rewrite lookup_setitem_same.
  unfold get_default_container_security_context. rewrite Hro.
  cbn [bind]. rewrite !py_get_dict. unfold when, get_or.
  assert (Hroot : is_root match lookup "runAsUser"
                                 ([("runAsNonRoot", JBool (run_as_non_root self));
                                   ("readOnlyRootFilesystem", JBool true);
                                   ("allowPrivilegeEscalation", JBool false)]
                                  ++ optional "runAsUser" (run_as_user self)
                                  ++ optional "runAsGroup" (run_as_group self))
                          with Some x => x | None => JNone end = false).
  { destruct (run_as_user self) as [z|]; destruct (run_as_group self);
      cbn; try reflexivity;
      apply Z.eqb_neq; intros ->; now apply Hu. }
  destruct (run_as_user self) as [z|], (run_as_group self) as [g|];
    destruct (enforce_privileged cfg), (enforce_non_root cfg),
      (enforce_readonly_root cfg);
    cbn [optional app]; cbn [optional app] in Hroot;
    cbn [bind lookup String.eqb Ascii.eqb Bool.eqb truthy negb];
    try reflexivity; cbn [bind lookup String.eqb Ascii.eqb Bool.eqb] in Hroot;
    rewrite Hroot; reflexivity.
Qed.

Lemma put_pod_spec_pod (o : list (string * Json)) (pod_spec : Json) :
  put_pod_spec "Pod" o pod_spec = Ok (setitem o "spec" pod_spec).
Proof. reflexivity. Qed.

(** What the security mutator writes passes the security validator.  With
    [read_only_root_filesystem] set and a [run_as_user] other than 0, a pod
    that went through the mutator is allowed by [_validate] of the security
    validator under every configuration of it, whatever security contexts its
    containers had before, as long as its spec does not ask for the host
    network. *)
Theorem secured_pod_passes (self : DefaultSecurityContextMutator)
  (cfg : SecurityContextValidator) (o p : list (string * Json)) :
  pod_spec_at "Pod" o = Ok (JDict p) ->
  typed_containers p is_dict = true ->
  read_only_root_filesystem self = true ->
  run_as_user self <> Some 0%Z ->
  truthy (get_or p "hostNetwork" (JBool false)) = false ->
  exists o1,
    DefaultSecurityContextMutator_mutate self (review "Pod" (JDict o))
    = (mkMutationResult true (Some (JDict o1)) None, review "Pod" (JDict o1))
    /\ SecurityContextValidator__validate cfg (JDict [("object", JDict o1)])
       = allow_with "Security context validation passed".
Proof.
  intros Hps Ht Hro Hu Hh.
  exists (setitem o "spec" (JDict (secured_spec self p))). split.
  - unfold DefaultSecurityContextMutator_mutate.
    rewrite mutate_by_review_pod.
    now rewrite (security_edit_typed self "Pod" o p Hps Ht), put_pod_spec_pod.
  - assert (Ht1 : typed_containers
                    (setitem p "securityContext"
                       (get_default_pod_security_context self)) is_dict = true)
      by (rewrite typed_containers_setitem; [exact Ht | discriminate]).
    unfold SecurityContextValidator__validate.
    rewrite (pod_spec_of_typed [("object", JDict (setitem o "spec" (JDict (secured_spec self p))))]
               (setitem o "spec" (JDict (secured_spec self p)))
               (secured_spec self p) eq_refl (lookup_setitem_same _ _ _)).
    cbn [bind]. rewrite py_get_dict.
    assert (Hhost : get_or (secured_spec self p) "hostNetwork" (JBool false)
                    = get_or p "hostNetwork" (JBool false)).
    { unfold get_or, secured_spec.
      rewrite lookup_map_containers by discriminate.
      now rewrite lookup_setitem_other by discriminate. }
    rewrite Hhost. unfold secured_spec at 1.
    rewrite (typed_containers_map _ _ is_dict Ht1).
    rewrite containers_of_setitem by discriminate.
    assert (Hloop : for_each (SecurityContext_container cfg)
                      (map (secure self) (containers_of p))
                      (allow_with "Security context validation passed")
                    = Ok (allow_with "Security context validation passed")).
    { apply for_each_none. apply Forall_forall. intros c1 Hin.
      apply in_map_iff in Hin as [c [<- Hin]].
      pose proof (proj1 (Forall_forall _ _) (typed_containers_all p is_dict Ht)
                    c Hin) as Hd.
      destruct c as [| | | | |d]; try discriminate.
      now apply SecurityContext_container_secure. }
    unfold when. destruct (enforce_host_network cfg); cbn [bind].
    + rewrite Hh. cbn [py_iter bind]. now rewrite Hloop.
    + cbn [py_iter bind]. now rewrite Hloop.
Qed.

Lemma secured_pod_passes_witness :
  exists o1,
    DefaultSecurityContextMutator_mutate default_security
      (review "Pod" (JDict half_resourced_pod))
    = (mkMutationResult true (Some (JDict o1)) None, review "Pod" (JDict o1))
    /\ SecurityContextValidator__validate strict_security
         (JDict [("object", JDict o1)])
       = allow_with "Security context validation passed".
Proof.
  apply (secured_pod_passes default_security strict_security
           half_resourced_pod (dict_at half_resourced_pod "spec")
           eq_refl eq_refl eq_refl).
  - discriminate.
  - reflexivity.
Defined.

Lemma has_key_str_dict (k : string) (d : list (string * string)) :
  has_key k (map (fun kv => (fst kv, JStr (snd kv))) d)
  = existsb (String.eqb k) (map fst d).
Proof.
  unfold has_key. induction d as [|[k' v] d IH]; [reflexivity|].
  cbn [map fst snd lookup existsb]. now destruct (k =? k').
Qed.

Lemma typed_containers_bare (spec : list (string * Json)) :
  typed_containers spec bare = true -> typed_containers spec is_dict = true.
Proof.
  unfold typed_containers.
  destruct (lookup "containers" spec) as [[| | | |cs|]|]; try discriminate;
    [|reflexivity].
  intros H. apply forallb_forall. intros c Hin.
  pose proof (proj1 (forallb_forall _ _) H c Hin) as Hb. now destruct c.
Qed.

Lemma ResourceRequirements_container_fill (self : DefaultResourcesMutator)
  (cfg : ResourceRequirementsValidator) (c : list (string * Json)) :
  complete (default_requests self) = true ->
  complete (default_limits self) = true ->
  has_key "resources" c = false ->
  ResourceRequirements_container cfg (fill self (JDict c)) = Ok None.
Proof.
  intros Hq Hl Hc. unfold fill. rewrite Hc.
  unfold ResourceRequirements_container. rewrite py_get_dict. unfold get_or.
  rewrite lookup_setitem_same. unfold get_default_resources.
  apply andb_prop in Hq as [Hqc Hqm]. apply andb_prop in Hl as [Hlc Hlm].
  rewrite <- has_key_str_dict in Hqc, Hqm, Hlc, Hlm.
  destruct (default_requests self) as [|q qs]; [discriminate|].
  destruct (default_limits self) as [|l ls]; [discriminate|].
  cbn [app truthy negb andb bind]. rewrite !py_get_dict.
  unfold get_or, str_dict, py_not_in.
  cbn [lookup String.eqb Ascii.eqb Bool.eqb bind py_in].
  rewrite Hqc, Hqm, Hlc, Hlm.
  now destruct (enforce_limits cfg).
Qed.

(** What the resources mutator writes passes the resource validator, when the
    defaults are complete.  With default requests and default limits that
    each name a cpu and a memory quantity, a pod whose containers had no
    ["resources"] is allowed by [_validate] of the resource validator after
    it went through the mutator. *)
Theorem filled_pod_passes (self : DefaultResourcesMutator)
  (cfg : ResourceRequirementsValidator) (o p : list (string * Json)) :
  pod_spec_at "Pod" o = Ok (JDict p) ->
  typed_containers p bare = true ->
  complete (default_requests self) = true ->
  complete (default_limits self) = true ->
  exists o1,
    DefaultResourcesMutator_mutate self (review "Pod" (JDict o))
    = (mkMutationResult true (Some (JDict o1)) None, review "Pod" (JDict o1))
    /\ ResourceRequirementsValidator__validate cfg (JDict [("object", JDict o1)])
       = allow_with "Resource requirements validation passed".
Proof.
  intros Hps Hb Hq Hl.
  pose proof (typed_containers_bare p Hb) as Ht.
  exists (setitem o "spec" (JDict (map_containers (fill self) p))). split.
  - unfold DefaultResourcesMutator_mutate.
    rewrite mutate_by_review_pod.
    now rewrite (resources_edit_typed self "Pod" o p Hps Ht), put_pod_spec_pod.
  - unfold ResourceRequirementsValidator__validate.
    rewrite (pod_spec_of_typed
               [("object",
                 JDict (setitem o "spec" (JDict (map_containers (fill self) p))))]
               (setitem o "spec" (JDict (map_containers (fill self) p)))
               (map_containers (fill self) p) eq_refl
               (lookup_setitem_same _ _ _)).
    cbn [bind]. rewrite (typed_containers_map _ _ is_dict Ht).
    cbn [py_iter bind]. rewrite for_each_none; [reflexivity|].
    apply Forall_forall. intros c1 Hin.
    apply in_map_iff in Hin as [c [<- Hin]].
    pose proof (proj1 (Forall_forall _ _) (typed_containers_all p bare Hb)
                  c Hin) as Hd.
    destruct c as [| | | | |d]; try discriminate.
    apply ResourceRequirements_container_fill; try assumption.
    cbn [bare] in Hd. now destruct (has_key "resources" d).
Qed.

Lemma filled_pod_passes_witness :
  exists o1,
    DefaultResourcesMutator_mutate default_resources
      (review "Pod"
         (JDict [("spec",
                  JDict [("containers",
                          JList [JDict [("name", JStr "nginx")]])])]))
    = (mkMutationResult true (Some (JDict o1)) None, review "Pod" (JDict o1))
    /\ ResourceRequirementsValidator__validate
         (mkResourceRequirementsValidator true)
         (JDict [("object", JDict o1)])
       = allow_with "Resource requirements validation passed".
Proof.
  apply (filled_pod_passes default_resources
           (mkResourceRequirementsValidator true)
           [("spec",
             JDict [("containers", JList [JDict [("name", JStr "nginx")]])])]
           [("containers", JList [JDict [("name", JStr "nginx")]])]
           eq_refl eq_refl eq_refl eq_refl).
Defined.

(** ** Exceptions under the base [validate] *)

(** On an envelope whose [request] is a dict with an ["object"], an exception
    that leaves [supports], or [_validate] once [supports] has accepted, does
    not leave the base [validate]: the result is allowed=false with the text
    of the exception as the message. *)
Theorem BaseValidator_validate_catches (sup : Json -> Exc bool)
  (val : Json -> Exc ValidationResult) (envelope request : list (string * Json))
  (e : exn) :
  lookup "request" envelope = Some (JDict request) ->
  has_key "object" request = true ->
  sup (JDict envelope) = Raise e
  \/ (sup (JDict envelope) = Ok true /\ val (JDict request) = Raise e) ->
  BaseValidator_validate sup val (JDict envelope) = deny (str_exn e).
Proof.
  intros Hr Ho H. unfold BaseValidator_validate.
  rewrite (missing_present "request" envelope _ Hr). cbn [bind].
  rewrite py_get_dict. unfold get_or. rewrite Hr. cbn [bind].
  rewrite missing_dict, Ho. cbn [negb bind].
  destruct H as [Hs|[Hs Hv]]; rewrite Hs; cbn [bind negb try_except];
    [reflexivity | now rewrite Hv].
Qed.

Lemma BaseValidator_validate_catches_witness :
  BaseValidator_validate (fun _ => Ok true)
    (fun r => v <- py_get r "object" JNone ;;
              s <- py_get v "spec" JNone ;; Ok allow)
    (JDict [("request", JDict [("object", JInt 7)])])
  = deny "'int' object has no attribute 'get'".
Proof.
  apply (BaseValidator_validate_catches (fun _ => Ok true)
           (fun r => v <- py_get r "object" JNone ;;
                     s <- py_get v "spec" JNone ;; Ok allow)
           [("request", JDict [("object", JInt 7)])]
           [("object", JInt 7)] (AttributeError "int" "get")
           eq_refl eq_refl).
  right. split; reflexivity.
Defined.
